(** * edx-lint: the feature-toggle checkers

    A shallow embedding of [edx_lint/pylint/feature_toggle_check.py]:
    the line index [AnnotationLines], the tree checker
    [FeatureToggleChecker] and the annotation-group checker
    [FeatureToggleAnnotationChecker], followed by the properties of these
    functions.

    Python values are modelled as the code uses them: a [str] is a list of
    Unicode code points, a compiled pattern is a regular expression run by
    a derivative matcher, [add_message] appends to the list of emitted
    messages, and an uncaught exception ends the run of a check while
    keeping the messages emitted so far. *)

From Stdlib Require Import List NArith ZArith Bool String Ascii Lia.
Import ListNotations.
Local Open Scope Z_scope.

(* ===================================================================== *)
(** ** Python strings *)
(* ===================================================================== *)

Module PyStr.

(** A Python [str]: a sequence of code points. *)
Definition char := N.
Definition pystr := list char.

(** A literal of the source, written as a Rocq string. *)
Definition str (s : string) : pystr :=
  map N_of_ascii (list_ascii_of_string s).

(** A one-character literal of the source. *)
Definition chr (a : ascii) : char := N_of_ascii a.

Definition char_eqb (a b : char) : bool := N.eqb a b.

Fixpoint eqb (a b : pystr) : bool :=
  match a, b with
  | [], [] => true
  | x :: a', y :: b' => char_eqb x y && eqb a' b'
  | _, _ => false
  end.

(** [Py_UNICODE_ISSPACE]: the characters that [\s] matches in a [str]
    pattern and that [str.strip()] removes. *)
Definition isspace (c : char) : bool :=
  ((9 <=? c) && (c <=? 13) || (28 <=? c) && (c <=? 32)
   || (c =? 133) || (c =? 160) || (c =? 5760)
   || (8192 <=? c) && (c <=? 8202)
   || (c =? 8232) || (c =? 8233) || (c =? 8239) || (c =? 8287)
   || (c =? 12288))%N.

(** The class [[A-Z]]. *)
Definition is_upper_AZ (c : char) : bool := ((65 <=? c) && (c <=? 90))%N.

Fixpoint startswith (s prefix : pystr) {struct prefix} : bool :=
  match prefix, s with
  | [], _ => true
  | p :: prefix', c :: s' => char_eqb c p && startswith s' prefix'
  | _ :: _, [] => false
  end.

(** [s.endswith(suffix)] *)
Definition endswith (s suffix : pystr) : bool :=
  startswith (rev s) (rev suffix).

(** [s.endswith((a, b, ...))]: some member of the tuple is a suffix. *)
Definition endswith_any (s : pystr) (suffixes : list pystr) : bool :=
  existsb (endswith s) suffixes.

(** [sub in s] on strings: [sub] occurs as a contiguous slice. *)
Fixpoint contains (sub s : pystr) : bool :=
  startswith s sub ||
  match s with
  | [] => false
  | _ :: s' => contains sub s'
  end.

Fixpoint lstrip (s : pystr) : pystr :=
  match s with
  | c :: s' => if isspace c then lstrip s' else s
  | [] => []
  end.

Definition rstrip (s : pystr) : pystr := rev (lstrip (rev s)).

(** [s.strip()] *)
Definition strip (s : pystr) : pystr := rstrip (lstrip s).

(** [s.split(sep)] for a one-character separator: never an empty list. *)
Fixpoint split (sep : char) (s : pystr) : list pystr :=
  match s with
  | [] => [[]]
  | c :: s' =>
      if char_eqb c sep then [] :: split sep s'
      else match split sep s' with
           | l :: ls => (c :: l) :: ls
           | [] => [[c]]
           end
  end.

(** [x in [a, b, ...]] for strings. *)
Definition mem (x : pystr) (l : list pystr) : bool := existsb (eqb x) l.

End PyStr.
Import PyStr.

(* ===================================================================== *)
(** ** Regular expressions, as [re.compile(...).match] runs them *)
(* ===================================================================== *)

Module Regex.

Inductive regex :=
| Void                       (* matches nothing *)
| Eps                        (* the empty pattern *)
| Chr (c : char)             (* a literal character *)
| Class (p : char -> bool)   (* a character class *)
| Seq (r1 r2 : regex)
| Alt (r1 r2 : regex)
| Star (r : regex).

(** The strings a pattern denotes. *)
Inductive lang : regex -> pystr -> Prop :=
| L_eps : lang Eps []
| L_chr c : lang (Chr c) [c]
| L_class p c : p c = true -> lang (Class p) [c]
| L_seq r1 r2 u v : lang r1 u -> lang r2 v -> lang (Seq r1 r2) (u ++ v)
| L_alt_l r1 r2 u : lang r1 u -> lang (Alt r1 r2) u
| L_alt_r r1 r2 u : lang r2 u -> lang (Alt r1 r2) u
| L_star_nil r : lang (Star r) []
| L_star_app r u v : lang r u -> lang (Star r) v -> lang (Star r) (u ++ v).

Fixpoint nullable (r : regex) : bool :=
  match r with
  | Void => false
  | Eps => true
  | Chr _ => false
  | Class _ => false
  | Seq r1 r2 => nullable r1 && nullable r2
  | Alt r1 r2 => nullable r1 || nullable r2
  | Star _ => true
  end.

Fixpoint deriv (a : char) (r : regex) : regex :=
  match r with
  | Void => Void
  | Eps => Void
  | Chr c => if char_eqb a c then Eps else Void
  | Class p => if p a then Eps else Void
  | Seq r1 r2 =>
      if nullable r1
      then Alt (Seq (deriv a r1) r2) (deriv a r2)
      else Seq (deriv a r1) r2
  | Alt r1 r2 => Alt (deriv a r1) (deriv a r2)
  | Star r1 => Seq (deriv a r1) (Star r1)
  end.

(** [bool(pattern.match(s))]: the match is anchored at the start of [s]
    and may end anywhere, so it succeeds when some prefix of [s] is in
    the language of the pattern. *)
Fixpoint re_match (r : regex) (s : pystr) : bool :=
  nullable r ||
  match s with
  | [] => false
  | a :: s' => re_match (deriv a r) s'
  end.

(** A literal word, character by character. *)
Fixpoint word (w : pystr) : regex :=
  match w with
  | [] => Eps
  | c :: w' => Seq (Chr c) (word w')
  end.

End Regex.
Import Regex.

(* ===================================================================== *)
(** ** Exceptions and Python indexing *)
(* ===================================================================== *)

Inductive exn := AttributeError | IndexError.

Inductive outcome (A : Type) :=
| Val (a : A)
| Exc (e : exn).
Arguments Val {A} a.
Arguments Exc {A} e.

(** [l[i]] on a Python list: a negative index counts from the end, an
    index outside [-len, len) raises [IndexError]. *)
Definition py_index {A : Type} (l : list A) (i : Z) : outcome A :=
  let n := Z.of_nat (List.length l) in
  let j := if i <? 0 then i + n else i in
  if (j <? 0) || (n <=? j) then Exc IndexError
  else match nth_error l (Z.to_nat j) with
       | Some x => Val x
       | None => Exc IndexError
       end.

(* ===================================================================== *)
(** ** class AnnotationLines *)
(* ===================================================================== *)

Module AnnotationLines.

(** [_ANNOTATION_REGEX = re.compile(r"[\s]*#[\s]*\.\.[\s]*(toggle)")] *)
Definition _ANNOTATION_REGEX : regex :=
  Seq (Star (Class isspace))
    (Seq (Chr (chr "#"))
       (Seq (Star (Class isspace))
          (Seq (Chr (chr "."))
             (Seq (Chr (chr "."))
                (Seq (Star (Class isspace))
                   (word (str "toggle"))))))).

(** The object: its only attribute is [_list_of_string_lines]. *)
Record t := { _list_of_string_lines : list pystr }.

(** [__init__], from the decoded text of the module:
    [module_as_string.split("\n")]. *)
Definition init (module_as_string : pystr) : t :=
  {| _list_of_string_lines := split (chr "010") module_as_string |}.

Definition _line_count (self : t) : Z :=
  Z.of_nat (List.length (_list_of_string_lines self)).

Definition _get_line_contents (self : t) (line_number : Z) : outcome pystr :=
  py_index (_list_of_string_lines self) (line_number - 1).

Definition is_line_annotated (self : t) (line_number : Z) : outcome bool :=
  if (line_number <? 1) || (_line_count self <? line_number) then Val false
  else match _get_line_contents self line_number with
       | Val line => Val (re_match _ANNOTATION_REGEX line)
       | Exc e => Exc e
       end.

End AnnotationLines.

(* ===================================================================== *)
(** ** The parsed tree, by the attributes the checkers read *)
(* ===================================================================== *)

(** The Python objects that reach a message argument. *)
Inductive pyobj :=
| PStr (s : pystr)        (* a str *)
| PInt (z : Z)            (* an int constant *)
| PBool (b : bool)        (* True, False *)
| PNone                   (* None *)
| PList (items : list pystr)  (* a list of str *)
| POther (repr : pystr).  (* any other object: bytes, a float, a tree node *)

(** [o == s] for a str [s]: only an equal str is equal to it. *)
Definition py_eq_str (o : pyobj) (s : pystr) : bool :=
  match o with
  | PStr t => PyStr.eqb t s
  | _ => false
  end.

(** An expression node.  An attribute that the node's class does not have
    is [None]: reading it raises [AttributeError], and [hasattr] is false. *)
Module Node.
Record t := {
  lineno : Z;
  as_string : pystr;          (* the result of [node.as_string()] *)
  value : option pyobj;       (* [node.value], of a constant *)
  name : option pystr         (* [node.name], of a simple name *)
}.
End Node.

(** A keyword argument [arg=value]; [arg] is None for [**kwargs]. *)
Module Keyword.
Record t := { arg : option pystr; value : Node.t }.
End Keyword.

Module Call.
Record t := {
  lineno : Z;
  func : Node.t;
  args : list Node.t;
  keywords : option (list Keyword.t)   (* may be None *)
}.
End Call.

Module ClassDef.
Record t := { lineno : Z; name : pystr; basenames : list pystr }.
End ClassDef.

Module Dict.
Record t := {
  lineno : Z;
  (** [node.parent.targets]: None when the parent has no such attribute *)
  parent_targets : option (list Node.t);
  items : list (Node.t * Node.t)
}.
End Dict.

Module ModuleNode.
Record t := { file : pystr }.
End ModuleNode.

(** The [node=] argument of [add_message]. *)
Inductive anchor :=
| AtCall (n : Call.t)
| AtClassDef (n : ClassDef.t)
| AtDict (n : Dict.t)
| AtModule (n : ModuleNode.t).

(** The line a message is reported at: the line of its node. *)
Definition anchor_line (a : anchor) : Z :=
  match a with
  | AtCall n => Call.lineno n
  | AtClassDef n => ClassDef.lineno n
  | AtDict n => Dict.lineno n
  | AtModule _ => 0
  end.

Record message := {
  msg_id : pystr;
  msg_args : list pyobj;
  msg_node : anchor
}.

(* ===================================================================== *)
(** ** Checks: emitted messages and exceptions *)
(* ===================================================================== *)

(** A check runs on the messages emitted so far, and either returns or
    raises; the messages it emitted before raising stay emitted. *)
Definition checker (A : Type) := list message -> outcome A * list message.

Definition ret {A} (a : A) : checker A := fun ms => (Val a, ms).

Definition raise {A} (e : exn) : checker A := fun ms => (Exc e, ms).

Definition bind {A B} (c : checker A) (k : A -> checker B) : checker B :=
  fun ms =>
    match c ms with
    | (Val a, ms') => k a ms'
    | (Exc e, ms') => (Exc e, ms')
    end.

Notation "x <- c ;; k" := (bind c (fun x => k))
  (at level 61, c at next level, right associativity).
Notation "c ;;; k" := (bind c (fun _ => k))
  (at level 61, right associativity).

Definition lift {A} (o : outcome A) : checker A :=
  match o with
  | Val a => ret a
  | Exc e => raise e
  end.

(** [obj.attr] where the attribute may be absent. *)
Definition getattr {A} (o : option A) : checker A :=
  match o with
  | Some a => ret a
  | None => raise AttributeError
  end.

(** [self.add_message(msgid, args=..., node=...)] *)
Definition add_message (id : pystr) (args : list pyobj) (node : anchor)
  : checker unit :=
  fun ms => (Val tt, ms ++ [{| msg_id := id; msg_args := args; msg_node := node |}]).

(** [try: c except AttributeError: return] around the rest [k] of the
    function: [k] runs only when [c] returned. *)
Definition try_except_AttributeError_return {A} (c : checker A)
    (k : A -> checker unit) : checker unit :=
  fun ms =>
    match c ms with
    | (Val a, ms') => k a ms'
    | (Exc AttributeError, ms') => (Val tt, ms')
    | (Exc e, ms') => (Exc e, ms')
    end.

(** [for x in l: acc = body(acc, x)] *)
Fixpoint for_loop {A B} (l : list A) (acc : B) (body : B -> A -> checker B)
  : checker B :=
  match l with
  | [] => ret acc
  | x :: l' => acc' <- body acc x ;; for_loop l' acc' body
  end.

(** The messages a check emits, started on an empty sink. *)
Definition emitted {A} (c : checker A) : list message := snd (c []).

(** How the check ended. *)
Definition result {A} (c : checker A) : outcome A := fst (c []).

Definition UNKNOWN : pystr := str "UNKNOWN".

(* ===================================================================== *)
(** ** class FeatureToggleChecker *)
(* ===================================================================== *)

Module FeatureToggleChecker.

Definition TOGGLE_NOT_ANNOTATED_MESSAGE_ID : pystr := str "feature-toggle-needs-doc".
Definition ILLEGAL_WAFFLE_MESSAGE_ID : pystr := str "illegal-waffle-usage".

(** [re.compile(r"[A-Z]")] *)
Definition _CHECK_CAPITAL_REGEX : regex := Class is_upper_AZ.

Definition _WAFFLE_TOGGLE_CLASSES : list pystr :=
  [str "WaffleFlag"; str "WaffleSwitch"; str "CourseWaffleFlag"].

Definition _ILLEGAL_WAFFLE_FUNCTIONS : list pystr :=
  [str "flag_is_active"; str "switch_is_active"].

(** The checker after [visit_module]: [self._lines]. *)
Record t := { _lines : AnnotationLines.t }.

(** [visit_module]: [self._lines = AnnotationLines(node)], from the
    decoded text of the module. *)
Definition visit_module (module_as_string : pystr) : t :=
  {| _lines := AnnotationLines.init module_as_string |}.

(** The loop over [node.keywords]: the last [flag_name] keyword sets the
    name to [node_key.value.value]. *)
Definition keywords_loop (keywords : list Keyword.t) (feature_toggle_name : pyobj)
  : checker pyobj :=
  for_loop keywords feature_toggle_name
    (fun feature_toggle_name node_key =>
       match Keyword.arg node_key with
       | Some a =>
           if PyStr.eqb a (str "flag_name")
           then getattr (Node.value (Keyword.value node_key))
           else ret feature_toggle_name
       | None => ret feature_toggle_name
       end).

Definition check_waffle_class_annotated (self : t) (node : Call.t)
  : checker unit :=
  match Node.name (Call.func node) with
  | None => ret tt
  | Some func_name =>
      if negb (re_match _CHECK_CAPITAL_REGEX func_name) then ret tt
      else if negb (endswith_any func_name _WAFFLE_TOGGLE_CLASSES) then ret tt
      else
        annotated <- lift (AnnotationLines.is_line_annotated
                             (_lines self) (Call.lineno node - 1)) ;;
        if negb annotated then
          feature_toggle_name <-
            match Call.keywords node with
            | Some keywords => keywords_loop keywords (PStr UNKNOWN)
            | None => ret (PStr UNKNOWN)
            end ;;
          feature_toggle_name <-
            (if py_eq_str feature_toggle_name UNKNOWN then
               if 2 <=? Z.of_nat (List.length (Call.args node)) then
                 a <- lift (py_index (Call.args node) 1) ;;
                 ret (PStr (Node.as_string a))
               else ret feature_toggle_name
             else ret feature_toggle_name) ;;
          add_message TOGGLE_NOT_ANNOTATED_MESSAGE_ID
            [feature_toggle_name] (AtCall node)
        else ret tt
  end.

Definition check_configuration_model_annotated (self : t) (node : ClassDef.t)
  : checker unit :=
  if negb (mem (str "ConfigurationModel") (ClassDef.basenames node)) then ret tt
  else
    annotated <- lift (AnnotationLines.is_line_annotated
                         (_lines self) (ClassDef.lineno node - 1)) ;;
    if negb annotated then
      add_message TOGGLE_NOT_ANNOTATED_MESSAGE_ID
        [PStr (ClassDef.name node)] (AtClassDef node)
    else ret tt.

Definition check_django_feature_flag_annotated (self : t) (node : Dict.t)
  : checker unit :=
  try_except_AttributeError_return
    (targets <- getattr (Dict.parent_targets node) ;;
     target <- lift (py_index targets 0) ;;
     getattr (Node.name target))
    (fun parent_target_name =>
       if PyStr.eqb parent_target_name (str "FEATURES") then
         for_loop (Dict.items node) tt
           (fun _ item =>
              let key := fst item in
              annotated <- lift (AnnotationLines.is_line_annotated
                                   (_lines self) (Node.lineno key - 1)) ;;
              if negb annotated then
                django_feature_toggle_name <- getattr (Node.value key) ;;
                add_message TOGGLE_NOT_ANNOTATED_MESSAGE_ID
                  [django_feature_toggle_name] (AtDict node)
              else ret tt)
       else ret tt).

Definition check_illegal_waffle_usage (self : t) (node : Call.t)
  : checker unit :=
  match Node.name (Call.func node) with
  | None => ret tt
  | Some func_name =>
      if mem func_name _ILLEGAL_WAFFLE_FUNCTIONS then
        feature_toggle_name <-
          (if 1 <=? Z.of_nat (List.length (Call.args node)) then
             a <- lift (py_index (Call.args node) 0) ;;
             ret (Node.as_string a)
           else ret UNKNOWN) ;;
        add_message ILLEGAL_WAFFLE_MESSAGE_ID
          [PStr feature_toggle_name] (AtCall node)
      else ret tt
  end.

Definition visit_call (self : t) (node : Call.t) : checker unit :=
  check_waffle_class_annotated self node ;;;
  check_illegal_waffle_usage self node.

Definition visit_classdef (self : t) (node : ClassDef.t) : checker unit :=
  check_configuration_model_annotated self node.

Definition visit_dict (self : t) (node : Dict.t) : checker unit :=
  check_django_feature_flag_annotated self node.

End FeatureToggleChecker.


(* ===================================================================== *)
(** ** class FeatureToggleAnnotationChecker *)
(* ===================================================================== *)

(** One annotation of a group, as the search yields it: the keys of the
    dict that the checker reads.  The data is a str or, for a token to
    which the configuration of the search gives choices (as it does to
    [toggle_use_cases]), the list of the tags found. *)
Module Annotation.
Inductive data :=
| Text (s : pystr)
| Tags (items : list pystr).

Record t := { annotation_token : pystr; annotation_data : data }.
End Annotation.

(** The data as the argument of a message. *)
Definition obj_of_data (d : Annotation.data) : pyobj :=
  match d with
  | Annotation.Text s => PStr s
  | Annotation.Tags items => PList items
  end.

Module FeatureToggleAnnotationChecker.
Import Annotation.

Definition INCORRECT_NAME_MESSAGE_ID : pystr := str "toggle-incorrect-name".
Definition EMPTY_DESCRIPTION_MESSAGE_ID : pystr := str "toggle-empty-description".
Definition MISSING_TARGET_REMOVAL_DATE_MESSAGE_ID : pystr :=
  str "toggle-missing-target-removal-date".
Definition NON_BOOLEAN_DEFAULT_VALUE : pystr :=
  str "toggle-non-boolean-default-value".

Definition TOKEN_NAME : pystr := str ".. toggle_name:".
Definition TOKEN_DESCRIPTION : pystr := str ".. toggle_description:".
Definition TOKEN_USE_CASES : pystr := str ".. toggle_use_cases:".
Definition TOKEN_TARGET_REMOVAL_DATE : pystr := str ".. toggle_target_removal_date:".
Definition TOKEN_DEFAULT : pystr := str ".. toggle_default:".

(** The local variables of [check_feature_toggles_annotation_group]. *)
Record locals := {
  target_removal_date : option data;
  temporary_use_case : bool;
  toggle_name : data;
  toggle_description : pystr;
  toggle_default : option data
}.

Definition initial_locals : locals :=
  {| target_removal_date := None;
     temporary_use_case := false;
     toggle_name := Text [];
     toggle_description := [];
     toggle_default := None |}.

(** [word in data]: a substring of a str, a member of a list. *)
Definition py_in (word : pystr) (d : data) : bool :=
  match d with
  | Text s => contains word s
  | Tags items => mem word items
  end.

(** [data.strip()]: a list has no such method. *)
Definition strip_data (d : data) : outcome pystr :=
  match d with
  | Text s => Val (strip s)
  | Tags _ => Exc AttributeError
  end.

(** The body of the loop over the annotations. *)
Definition loop_body (l : locals) (annotation : Annotation.t) : outcome locals :=
  let token := annotation_token annotation in
  let data := annotation_data annotation in
  if PyStr.eqb token TOKEN_NAME then
    Val {| target_removal_date := target_removal_date l;
           temporary_use_case := temporary_use_case l;
           toggle_name := data;
           toggle_description := toggle_description l;
           toggle_default := toggle_default l |}
  else if PyStr.eqb token TOKEN_DESCRIPTION then
    match strip_data data with
    | Val stripped =>
        Val {| target_removal_date := target_removal_date l;
               temporary_use_case := temporary_use_case l;
               toggle_name := toggle_name l;
               toggle_description := stripped;
               toggle_default := toggle_default l |}
    | Exc e => Exc e
    end
  else if PyStr.eqb token TOKEN_USE_CASES then
    if py_in (str "temporary") data then
      Val {| target_removal_date := target_removal_date l;
             temporary_use_case := true;
             toggle_name := toggle_name l;
             toggle_description := toggle_description l;
             toggle_default := toggle_default l |}
    else Val l
  else if PyStr.eqb token TOKEN_TARGET_REMOVAL_DATE then
    Val {| target_removal_date := Some data;
           temporary_use_case := temporary_use_case l;
           toggle_name := toggle_name l;
           toggle_description := toggle_description l;
           toggle_default := toggle_default l |}
  else if PyStr.eqb token TOKEN_DEFAULT then
    Val {| target_removal_date := target_removal_date l;
           temporary_use_case := temporary_use_case l;
           toggle_name := toggle_name l;
           toggle_description := toggle_description l;
           toggle_default := Some data |}
  else Val l.

(** The loop over the annotations: it ends at the first exception. *)
Fixpoint loop (annotations : list Annotation.t) (l : locals) : outcome locals :=
  match annotations with
  | [] => Val l
  | annotation :: rest =>
      match loop_body l annotation with
      | Val l' => loop rest l'
      | Exc e => Exc e
      end
  end.

(** [not s] for a str. *)
Definition str_falsy (s : pystr) : bool :=
  match s with [] => true | _ => false end.

(** [not d] for the data of an annotation: the empty str, the empty list. *)
Definition data_falsy (d : data) : bool :=
  match d with
  | Text s => str_falsy s
  | Tags [] => true
  | Tags (_ :: _) => false
  end.

(** [not x] for a variable that is None or the data of an annotation. *)
Definition opt_falsy (x : option data) : bool :=
  match x with
  | None => true
  | Some d => data_falsy d
  end.

(** [x not in ["True", "False"]] for a variable that is None or the data of
    an annotation: a list is equal to neither string. *)
Definition not_in_True_False (x : option data) : bool :=
  match x with
  | None => true
  | Some (Text s) => negb (mem s [str "True"; str "False"])
  | Some (Tags _) => true
  end.

(** The four rules, run on the final values of the locals. *)
Definition rules (l : locals) (node : ModuleNode.t) : checker unit :=
  (if data_falsy (toggle_name l)
   then add_message INCORRECT_NAME_MESSAGE_ID [] (AtModule node)
   else ret tt) ;;;
  (if str_falsy (toggle_description l)
   then add_message EMPTY_DESCRIPTION_MESSAGE_ID
          [obj_of_data (toggle_name l)] (AtModule node)
   else ret tt) ;;;
  (if temporary_use_case l && opt_falsy (target_removal_date l)
   then add_message MISSING_TARGET_REMOVAL_DATE_MESSAGE_ID
          [obj_of_data (toggle_name l)] (AtModule node)
   else ret tt) ;;;
  (if not_in_True_False (toggle_default l)
   then add_message NON_BOOLEAN_DEFAULT_VALUE
          [obj_of_data (toggle_name l)] (AtModule node)
   else ret tt).

Definition check_feature_toggles_annotation_group
    (annotations : list Annotation.t) (node : ModuleNode.t) : checker unit :=
  match annotations with
  | [] => ret tt
  | _ :: _ =>
      l <- lift (loop annotations initial_locals) ;;
      rules l node
  end.

(** [visit_module], on the groups that the search found in each file. *)
Definition visit_module (node : ModuleNode.t)
    (results : list (pystr * list (list Annotation.t))) : checker unit :=
  for_loop results tt
    (fun _ file_results =>
       for_loop (snd file_results) tt
         (fun _ current_annotations_group =>
            check_feature_toggles_annotation_group
              current_annotations_group node)).

End FeatureToggleAnnotationChecker.

(* ===================================================================== *)
(** ** Vocabulary of the properties *)
(* ===================================================================== *)

Module Stated.
Import Annotation.

(** A run of whitespace characters. *)
Definition spaces (u : pystr) : Prop := Forall (fun c => isspace c = true) u.

(** The marker at the start of a line: optional whitespace, [#], optional
    whitespace, [..], optional whitespace, [toggle], then anything. *)
Definition marker_at_start (line : pystr) : Prop :=
  exists ws1 ws2 ws3 rest,
    spaces ws1 /\ spaces ws2 /\ spaces ws3 /\
    line = ws1 ++ str "#" ++ ws2 ++ str ".." ++ ws3 ++ str "toggle" ++ rest.

(** The answer of [is_line_annotated], an exception counting as no. *)
Definition line_annotated (lines : AnnotationLines.t) (n : Z) : bool :=
  match AnnotationLines.is_line_annotated lines n with
  | Val b => b
  | Exc _ => false
  end.

(** The name starts with a letter of [A-Z]. *)
Definition starts_with_capital (name : pystr) : Prop :=
  exists c rest, name = c :: rest /\ is_upper_AZ c = true.

(** The name ends with one of the given suffixes. *)
Definition ends_with_one_of (name : pystr) (suffixes : list pystr) : Prop :=
  exists prefix suffix, In suffix suffixes /\ name = prefix ++ suffix.

Definition is_flag_name (k : Keyword.t) : bool :=
  match Keyword.arg k with
  | Some a => PyStr.eqb a (str "flag_name")
  | None => false
  end.

Definition call_keywords (node : Call.t) : list Keyword.t :=
  match Call.keywords node with
  | Some kws => kws
  | None => []
  end.

(** Every keyword named [flag_name] has a literal for value. *)
Definition flag_name_literal (node : Call.t) : Prop :=
  forall k, In k (call_keywords node) -> is_flag_name k = true ->
            Node.value (Keyword.value k) <> None.

(** The literal of the last keyword named [flag_name], if there is one. *)
Definition flag_name_value (node : Call.t) : option pyobj :=
  match find is_flag_name (rev (call_keywords node)) with
  | Some k => Node.value (Keyword.value k)
  | None => None
  end.

(** The rendering of the second positional argument, else "UNKNOWN". *)
Definition second_positional_or_unknown (node : Call.t) : pyobj :=
  match Call.args node with
  | _ :: a :: _ => PStr (Node.as_string a)
  | _ => PStr UNKNOWN
  end.

(** The rendering of the first positional argument, else "UNKNOWN". *)
Definition first_positional_or_unknown (node : Call.t) : pyobj :=
  match Call.args node with
  | a :: _ => PStr (Node.as_string a)
  | [] => PStr UNKNOWN
  end.

(** The name by the priority order as the specification words it: the
    [flag_name] keyword first, whatever its value. *)
Definition claimed_toggle_name (node : Call.t) : pyobj :=
  match flag_name_value node with
  | Some v => v
  | None => second_positional_or_unknown node
  end.

(** The name by the priority order of the code: a [flag_name] keyword
    whose value is the string "UNKNOWN" counts as no keyword. *)
Definition reported_toggle_name (node : Call.t) : pyobj :=
  match flag_name_value node with
  | Some v =>
      if py_eq_str v UNKNOWN then second_positional_or_unknown node else v
  | None => second_positional_or_unknown node
  end.

Definition needs_doc (name : pyobj) (node : anchor) : message :=
  {| msg_id := FeatureToggleChecker.TOGGLE_NOT_ANNOTATED_MESSAGE_ID;
     msg_args := [name]; msg_node := node |}.

Definition illegal_usage (name : pyobj) (node : anchor) : message :=
  {| msg_id := FeatureToggleChecker.ILLEGAL_WAFFLE_MESSAGE_ID;
     msg_args := [name]; msg_node := node |}.

(** The messages expected of a FEATURES dictionary: one per entry whose
    key follows a line that is not annotated, in the order of the entries,
    all on the dictionary node. *)
Definition features_messages (lines : AnnotationLines.t) (node : Dict.t)
  : list message :=
  flat_map
    (fun item : Node.t * Node.t =>
       let key := fst item in
       if line_annotated lines (Node.lineno key - 1) then []
       else match Node.value key with
            | Some v => [needs_doc v (AtDict node)]
            | None => []
            end)
    (Dict.items node).

(** The data of the last annotation of the group with this token. *)
Definition last_data (token : pystr) (annotations : list Annotation.t)
  : option data :=
  option_map annotation_data
    (find (fun a => PyStr.eqb (annotation_token a) token) (rev annotations)).

Definition or_empty (x : option data) : data :=
  match x with Some d => d | None => Text [] end.

(** The description after [strip()], empty when there is none. *)
Definition stripped (x : option data) : pystr :=
  match x with
  | Some (Text s) => strip s
  | _ => []
  end.

(** [word in data], spelled out: a substring of a str, a member of a list. *)
Definition mentions (word : pystr) (d : data) : Prop :=
  (exists s u v, d = Text s /\ s = u ++ word ++ v) \/
  (exists items, d = Tags items /\ In word items).

(** Some annotation of the group with this token has the word in its
    data. *)
Definition some_data_contains (token word : pystr)
    (annotations : list Annotation.t) : bool :=
  existsb (fun a => PyStr.eqb (annotation_token a) token
                    && FeatureToggleAnnotationChecker.py_in word (annotation_data a))
    annotations.

(** The values of the rules if the last occurrence of every token won. *)
Definition last_write_wins_locals (annotations : list Annotation.t)
  : FeatureToggleAnnotationChecker.locals :=
  let T := FeatureToggleAnnotationChecker.TOKEN_USE_CASES in
  {| FeatureToggleAnnotationChecker.target_removal_date :=
       last_data FeatureToggleAnnotationChecker.TOKEN_TARGET_REMOVAL_DATE annotations;
     FeatureToggleAnnotationChecker.temporary_use_case :=
       FeatureToggleAnnotationChecker.py_in (str "temporary")
         (or_empty (last_data T annotations));
     FeatureToggleAnnotationChecker.toggle_name :=
       or_empty (last_data FeatureToggleAnnotationChecker.TOKEN_NAME annotations);
     FeatureToggleAnnotationChecker.toggle_description :=
       stripped (last_data FeatureToggleAnnotationChecker.TOKEN_DESCRIPTION annotations);
     FeatureToggleAnnotationChecker.toggle_default :=
       last_data FeatureToggleAnnotationChecker.TOKEN_DEFAULT annotations |}.

(** The values of the rules as the loop leaves them: the last occurrence
    wins for the name, the description, the removal date and the default;
    the toggle is temporary when any use-case annotation says so. *)
Definition final_locals (annotations : list Annotation.t)
  : FeatureToggleAnnotationChecker.locals :=
  {| FeatureToggleAnnotationChecker.target_removal_date :=
       last_data FeatureToggleAnnotationChecker.TOKEN_TARGET_REMOVAL_DATE annotations;
     FeatureToggleAnnotationChecker.temporary_use_case :=
       some_data_contains FeatureToggleAnnotationChecker.TOKEN_USE_CASES
         (str "temporary") annotations;
     FeatureToggleAnnotationChecker.toggle_name :=
       or_empty (last_data FeatureToggleAnnotationChecker.TOKEN_NAME annotations);
     FeatureToggleAnnotationChecker.toggle_description :=
       stripped (last_data FeatureToggleAnnotationChecker.TOKEN_DESCRIPTION annotations);
     FeatureToggleAnnotationChecker.toggle_default :=
       last_data FeatureToggleAnnotationChecker.TOKEN_DEFAULT annotations |}.

Definition annotation_message (id : pystr) (args : list pyobj)
    (node : ModuleNode.t) : message :=
  {| msg_id := id; msg_args := args; msg_node := AtModule node |}.

(** The messages of the four rules on given values, in their order. *)
Definition rule_messages (l : FeatureToggleAnnotationChecker.locals)
    (node : ModuleNode.t) : list message :=
  let name := obj_of_data (FeatureToggleAnnotationChecker.toggle_name l) in
  (if FeatureToggleAnnotationChecker.data_falsy
        (FeatureToggleAnnotationChecker.toggle_name l)
   then [annotation_message
           FeatureToggleAnnotationChecker.INCORRECT_NAME_MESSAGE_ID [] node]
   else [])
  ++ (if FeatureToggleAnnotationChecker.str_falsy
           (FeatureToggleAnnotationChecker.toggle_description l)
      then [annotation_message
              FeatureToggleAnnotationChecker.EMPTY_DESCRIPTION_MESSAGE_ID
              [name] node]
      else [])
  ++ (if FeatureToggleAnnotationChecker.temporary_use_case l
         && FeatureToggleAnnotationChecker.opt_falsy
              (FeatureToggleAnnotationChecker.target_removal_date l)
      then [annotation_message
              FeatureToggleAnnotationChecker.MISSING_TARGET_REMOVAL_DATE_MESSAGE_ID
              [name] node]
      else [])
  ++ (if FeatureToggleAnnotationChecker.not_in_True_False
           (FeatureToggleAnnotationChecker.toggle_default l)
      then [annotation_message
              FeatureToggleAnnotationChecker.NON_BOOLEAN_DEFAULT_VALUE
              [name] node]
      else []).

(** The group has an annotation with this token. *)
Definition has_token (token : pystr) (annotations : list Annotation.t) : Prop :=
  exists a, In a annotations /\ annotation_token a = token.

(** The data of every [toggle_description] annotation is a str, as the
    search yields it. *)
Definition descriptions_are_text (annotations : list Annotation.t) : Prop :=
  forall a, In a annotations ->
            annotation_token a = FeatureToggleAnnotationChecker.TOKEN_DESCRIPTION ->
            exists s, annotation_data a = Text s.

End Stated.

(* ===================================================================== *)
(** ** Sample inputs *)
(* ===================================================================== *)

Module Samples.
Import Annotation.

Definition const (line : Z) (s : string) : Node.t :=
  {| Node.lineno := line;
     Node.as_string := str "'" ++ str s ++ str "'";
     Node.value := Some (PStr (str s));
     Node.name := None |}.

Definition name_node (line : Z) (s : string) : Node.t :=
  {| Node.lineno := line;
     Node.as_string := str s;
     Node.value := None;
     Node.name := Some (str s) |}.

Definition ann (token data : string) : Annotation.t :=
  {| annotation_token := str token; annotation_data := Text (str data) |}.

(** An annotation whose data is the list of the tags found. *)
Definition tags (token : string) (items : list string) : Annotation.t :=
  {| annotation_token := str token; annotation_data := Tags (map str items) |}.

Definition a_module : ModuleNode.t := {| ModuleNode.file := str "settings.py" |}.

(** [FLAG = WaffleFlag("ns", "x", flag_name="UNKNOWN")] on the first
    line of a module. *)
Definition unknown_call_text : pystr :=
  str "FLAG = WaffleFlag('ns', 'x', flag_name='UNKNOWN')".

Definition unknown_call : Call.t :=
  {| Call.lineno := 1;
     Call.func := name_node 1 "WaffleFlag";
     Call.args := [const 1 "ns"; const 1 "x"];
     Call.keywords :=
       Some [{| Keyword.arg := Some (str "flag_name");
                Keyword.value := const 1 "UNKNOWN" |}] |}.

Definition newline : pystr := [chr "010"].

(** A FEATURES dictionary of two entries; only the first is annotated. *)
Definition features_text : pystr :=
  str "FEATURES = {" ++ newline ++
  str "    # .. toggle_name: FEATURES['A']" ++ newline ++
  str "    'A': True," ++ newline ++
  str "    'B': False," ++ newline ++
  str "}".

Definition features_dict : Dict.t :=
  {| Dict.lineno := 1;
     Dict.parent_targets := Some [name_node 1 "FEATURES"];
     Dict.items :=
       [(const 3 "A", name_node 3 "True");
        (const 4 "B", name_node 4 "False")] |}.

(** A group with two use-case lines: the first says temporary, the last
    does not. *)
Definition two_use_cases : list Annotation.t :=
  [ann ".. toggle_name:" "X";
   ann ".. toggle_description:" "Some description";
   tags ".. toggle_use_cases:" ["temporary"%string];
   tags ".. toggle_use_cases:" ["open_edx"%string];
   ann ".. toggle_default:" "True"].

(** A valid group, but for the name that comes after the description. *)
Definition name_second : list Annotation.t :=
  [ann ".. toggle_description:" "Some description";
   ann ".. toggle_name:" "X";
   ann ".. toggle_default:" "True"].

(** The temporary toggle without a removal date: the use cases
    [temporary, release], as the list of tags that the search yields. *)
Definition temporary_release : list Annotation.t :=
  [ann ".. toggle_name:" "X";
   ann ".. toggle_description:" "Some description";
   tags ".. toggle_use_cases:" ["temporary"; "release"]%string;
   ann ".. toggle_default:" "True"].

(** The same group with the use cases as one string. *)
Definition temporary_release_text : list Annotation.t :=
  [ann ".. toggle_name:" "X";
   ann ".. toggle_description:" "Some description";
   ann ".. toggle_use_cases:" "temporary, release";
   ann ".. toggle_default:" "True"].

(** A toggle whose only use case is the tag [temporary_rollout]. *)
Definition temporary_rollout : list Annotation.t :=
  [ann ".. toggle_name:" "X";
   ann ".. toggle_description:" "Some description";
   tags ".. toggle_use_cases:" ["temporary_rollout"%string];
   ann ".. toggle_default:" "True"].

(** [FEATURES = {'A': True, B: False, 'C': True}] on one line, with no
    annotation: the second key is a name. *)
Definition three_keys_text : pystr :=
  str "FEATURES = {'A': True, B: False, 'C': True}".

Definition three_keys_dict : Dict.t :=
  {| Dict.lineno := 1;
     Dict.parent_targets := Some [name_node 1 "FEATURES"];
     Dict.items :=
       [(const 1 "A", name_node 1 "True");
        (name_node 1 "B", name_node 1 "False");
        (const 1 "C", name_node 1 "True")] |}.

(** [FEATURES: dict = {'A': True}]: the parent is an annotated assignment,
    which has a [target] and no [targets]. *)
Definition annotated_assignment_text : pystr :=
  str "FEATURES: dict = {'A': True}".

Definition annotated_assignment_dict : Dict.t :=
  {| Dict.lineno := 1;
     Dict.parent_targets := None;
     Dict.items := [(const 1 "A", name_node 1 "True")] |}.

Definition with_default (d : string) : list Annotation.t :=
  [ann ".. toggle_name:" "X";
   ann ".. toggle_description:" "Some description";
   ann ".. toggle_default:" d].

End Samples.

Import Stated.

(* ===================================================================== *)
(** ** Vocabulary of the further properties *)
(* ===================================================================== *)

Module Further.
Import Annotation.

(** [sep.join(lines)] *)
Fixpoint join (sep : pystr) (lines : list pystr) : pystr :=
  match lines with
  | [] => []
  | l :: rest =>
      match rest with
      | [] => l
      | _ :: _ => l ++ sep ++ join sep rest
      end
  end.

(** The number of occurrences of a character. *)
Definition count_char (c : char) (s : pystr) : Z :=
  Z.of_nat (List.length (filter (char_eqb c) s)).

(** The callee is a simple name that the waffle-class check looks at. *)
Definition is_waffle_class_call (node : Call.t) : bool :=
  match Node.name (Call.func node) with
  | Some func_name =>
      re_match FeatureToggleChecker._CHECK_CAPITAL_REGEX func_name
      && endswith_any func_name FeatureToggleChecker._WAFFLE_TOGGLE_CLASSES
  | None => false
  end.

(** The callee is a simple name of the deny-list. *)
Definition is_illegal_call (node : Call.t) : bool :=
  match Node.name (Call.func node) with
  | Some func_name => mem func_name FeatureToggleChecker._ILLEGAL_WAFFLE_FUNCTIONS
  | None => false
  end.

(** A keyword named [flag_name] whose value is not a literal. *)
Definition bad_flag_name (k : Keyword.t) : Prop :=
  is_flag_name k = true /\ Node.value (Keyword.value k) = None.

(** The token is one of the five that the loop tests for. *)
Definition recognized (a : Annotation.t) : bool :=
  mem (annotation_token a)
    [FeatureToggleAnnotationChecker.TOKEN_NAME;
     FeatureToggleAnnotationChecker.TOKEN_DESCRIPTION;
     FeatureToggleAnnotationChecker.TOKEN_USE_CASES;
     FeatureToggleAnnotationChecker.TOKEN_TARGET_REMOVAL_DATE;
     FeatureToggleAnnotationChecker.TOKEN_DEFAULT].

(** Some emitted message has this id. *)
Definition emits (id : pystr) (ms : list message) : Prop :=
  exists m, In m ms /\ msg_id m = id.

(** The messages of all the groups of all the files, in their order. *)
Definition all_group_messages (node : ModuleNode.t)
    (results : list (pystr * list (list Annotation.t))) : list message :=
  flat_map
    (fun file_results : pystr * list (list Annotation.t) =>
       flat_map
         (fun group =>
            emitted (FeatureToggleAnnotationChecker.check_feature_toggles_annotation_group
                       group node))
         (snd file_results))
    results.

(** [class Settings(ConfigurationModel):] on the first line of a module. *)
Definition config_class : ClassDef.t :=
  {| ClassDef.lineno := 1;
     ClassDef.name := str "Settings";
     ClassDef.basenames := [str "ConfigurationModel"] |}.

(** [FLAG = WaffleFlag('ns', flag_name=NAME)]: the keyword is not a literal. *)
Definition name_keyword_call : Call.t :=
  {| Call.lineno := 1;
     Call.func := Samples.name_node 1 "WaffleFlag";
     Call.args := [Samples.const 1 "ns"];
     Call.keywords :=
       Some [{| Keyword.arg := Some (str "flag_name");
                Keyword.value := Samples.name_node 1 "NAME" |}] |}.

(** [waffle.flag_is_active('x')]: the callee is an attribute, not a name. *)
Definition attribute_call : Call.t :=
  {| Call.lineno := 1;
     Call.func := {| Node.lineno := 1;
                     Node.as_string := str "waffle.flag_is_active";
                     Node.value := None;
                     Node.name := None |};
     Call.args := [Samples.const 1 "x"];
     Call.keywords := None |}.

(** [FEATURES = {'A': True, B: False}] with no annotation: the second key
    is a name. *)
Definition name_key_dict : Dict.t :=
  {| Dict.lineno := 1;
     Dict.parent_targets := Some [Samples.name_node 1 "FEATURES"];
     Dict.items :=
       [(Samples.const 1 "A", Samples.name_node 1 "True");
        (Samples.name_node 1 "B", Samples.name_node 1 "False")] |}.

(** [OTHER = FEATURES = {'A': True}]: FEATURES is the second target. *)
Definition second_target_dict : Dict.t :=
  {| Dict.lineno := 1;
     Dict.parent_targets :=
       Some [Samples.name_node 1 "OTHER"; Samples.name_node 1 "FEATURES"];
     Dict.items := [(Samples.const 1 "A", Samples.name_node 1 "True")] |}.

End Further.

Import Further.

(* ===================================================================== *)
(** ** Facts on strings *)
(* ===================================================================== *)

Lemma char_eqb_eq (a b : char) : char_eqb a b = true <-> a = b.
Proof. apply N.eqb_eq. Qed.

Lemma pystr_eqb_eq (a b : pystr) : PyStr.eqb a b = true <-> a = b.
Proof.
  revert b; induction a as [|x a IH]; intros [|y b]; simpl; split;
    try congruence; try reflexivity.
  - intros H. apply andb_true_iff in H as [H1 H2].
    apply char_eqb_eq in H1. apply IH in H2. congruence.
  - intros H. injection H as -> ->. apply andb_true_iff. split.
    + now apply char_eqb_eq.
    + now apply IH.
Qed.

Lemma pystr_eqb_refl (a : pystr) : PyStr.eqb a a = true.
Proof. now apply pystr_eqb_eq. Qed.

Lemma pystr_eqb_neq (a b : pystr) : PyStr.eqb a b = false <-> a <> b.
Proof.
  split.
  - intros H E. apply pystr_eqb_eq in E. congruence.
  - intros H. destruct (PyStr.eqb a b) eqn:E; [|reflexivity].
    apply pystr_eqb_eq in E. contradiction.
Qed.

Lemma startswith_spec (s prefix : pystr) :
  startswith s prefix = true <-> exists rest, s = prefix ++ rest.
Proof.
  revert s; induction prefix as [|p prefix IH]; intros s; simpl.
  - split; [intros _; now exists s | reflexivity].
  - destruct s as [|c s].
    + split; [discriminate | intros [rest H]; discriminate].
    + rewrite andb_true_iff, char_eqb_eq, IH. split.
      * intros [-> [rest ->]]. now exists rest.
      * intros [rest H]. injection H as -> ->. split; [reflexivity | now exists rest].
Qed.

Lemma endswith_spec (s suffix : pystr) :
  endswith s suffix = true <-> exists front, s = front ++ suffix.
Proof.
  unfold endswith. rewrite startswith_spec. split.
  - intros [rest H]. exists (rev rest).
    rewrite <- (rev_involutive s), H, rev_app_distr, rev_involutive. reflexivity.
  - intros [front ->]. exists (rev front). apply rev_app_distr.
Qed.

Lemma mem_spec (x : pystr) (l : list pystr) : mem x l = true <-> In x l.
Proof.
  unfold mem. rewrite existsb_exists. split.
  - intros [y [Hy E]]. apply pystr_eqb_eq in E. now subst.
  - intros H. exists x. split; [assumption | apply pystr_eqb_refl].
Qed.

Lemma endswith_any_spec (s : pystr) (suffixes : list pystr) :
  endswith_any s suffixes = true <-> ends_with_one_of s suffixes.
Proof.
  unfold endswith_any, ends_with_one_of. rewrite existsb_exists. split.
  - intros [suffix [Hin H]]. apply endswith_spec in H as [front ->].
    now exists front, suffix.
  - intros [front [suffix [Hin ->]]]. exists suffix. split; [assumption|].
    apply endswith_spec. now exists front.
Qed.

Lemma contains_spec (sub s : pystr) :
  contains sub s = true <-> exists u v, s = u ++ sub ++ v.
Proof.
  induction s as [|c s IH]; simpl.
  - rewrite orb_false_r. split.
    + intros H. destruct sub; [now exists [], [] | discriminate].
    + intros [u [v H]]. symmetry in H.
      apply app_eq_nil in H as [_ H]. apply app_eq_nil in H as [-> _].
      reflexivity.
  - rewrite orb_true_iff. split.
    + intros [H | H].
      * change (startswith (c :: s) sub = true) in H.
        apply startswith_spec in H as [rest H]. exists [], rest. exact H.
      * apply IH in H as [u [v ->]]. now exists (c :: u), v.
    + intros [u [v H]]. destruct u as [|x u].
      * left. change (startswith (c :: s) sub = true).
        apply startswith_spec. now exists v.
      * right. apply IH. injection H as _ ->. now exists u, v.
Qed.

Lemma split_not_nil (sep : char) (s : pystr) : split sep s <> [].
Proof.
  induction s as [|c s IH]; simpl; [discriminate|].
  destruct (char_eqb c sep); [discriminate|].
  destruct (split sep s); [contradiction | discriminate].
Qed.

(* ===================================================================== *)
(** ** The matcher is the language of the pattern *)
(* ===================================================================== *)

Lemma nullable_spec (r : regex) : nullable r = true <-> lang r [].
Proof.
  induction r as [| | | |r1 IH1 r2 IH2|r1 IH1 r2 IH2|r IH]; simpl.
  - split; [discriminate | intros H; inversion H].
  - split; [constructor | reflexivity].
  - split; [discriminate | intros H; inversion H].
  - split; [discriminate | intros H; inversion H].
  - rewrite andb_true_iff, IH1, IH2. split.
    + intros [H1 H2]. change (@nil char) with (@nil char ++ @nil char).
      now constructor.
    + intros H. inversion H; subst.
      match goal with
      | E : _ ++ _ = [] |- _ => apply app_eq_nil in E as [-> ->]
      end.
      now split.
  - rewrite orb_true_iff, IH1, IH2. split.
    + intros [H | H]; [now apply L_alt_l | now apply L_alt_r].
    + intros H. inversion H; subst; [now left | now right].
  - split; [constructor | reflexivity].
Qed.

(** A non-empty word of a starred pattern starts with a non-empty word of
    the pattern. *)
Lemma star_cons (r : regex) (a : char) (s : pystr) :
  lang (Star r) (a :: s) ->
  exists u v, s = u ++ v /\ lang r (a :: u) /\ lang (Star r) v.
Proof.
  intros H. remember (Star r) as sr eqn:Esr. remember (a :: s) as w eqn:Ew.
  revert a s Ew.
  induction H as [| | | | | | |r' u v Hu _ Hv IHv]; try discriminate.
  injection Esr as ->. intros a s Ew.
  destruct u as [|x u]; simpl in Ew.
  - apply IHv; [reflexivity | assumption].
  - injection Ew as -> <-. now exists u, v.
Qed.

Lemma lang_void (w : pystr) : lang Void w <-> False.
Proof. split; intros H; inversion H. Qed.

Lemma lang_eps (w : pystr) : lang Eps w <-> w = [].
Proof. split; intros H; [now inversion H | subst; constructor]. Qed.

Lemma lang_chr (c : char) (w : pystr) : lang (Chr c) w <-> w = [c].
Proof. split; intros H; [now inversion H | subst; constructor]. Qed.

Lemma lang_class (p : char -> bool) (w : pystr) :
  lang (Class p) w <-> exists c, w = [c] /\ p c = true.
Proof.
  split.
  - intros H. inversion H; subst. eauto.
  - intros [c [-> H]]. now constructor.
Qed.

Lemma lang_seq (r1 r2 : regex) (w : pystr) :
  lang (Seq r1 r2) w <-> exists u v, w = u ++ v /\ lang r1 u /\ lang r2 v.
Proof.
  split.
  - intros H. inversion H; subst. eauto.
  - intros [u [v [-> [Hu Hv]]]]. now constructor.
Qed.

Lemma lang_alt (r1 r2 : regex) (w : pystr) :
  lang (Alt r1 r2) w <-> lang r1 w \/ lang r2 w.
Proof.
  split.
  - intros H. inversion H; subst; [now left | now right].
  - intros [H | H]; [now apply L_alt_l | now apply L_alt_r].
Qed.

(** The words of [Seq r1 r2] that start with [a]. *)
Lemma lang_seq_cons (r1 r2 : regex) (a : char) (s : pystr) :
  lang (Seq r1 r2) (a :: s) <->
  (exists u v, s = u ++ v /\ lang r1 (a :: u) /\ lang r2 v)
  \/ (lang r1 [] /\ lang r2 (a :: s)).
Proof.
  rewrite lang_seq. split.
  - intros [u [v [E [Hu Hv]]]]. destruct u as [|x u]; simpl in E.
    + right. subst. now split.
    + injection E as <- ->. left. now exists u, v.
  - intros [[u [v [-> [Hu Hv]]]] | [H1 H2]].
    + now exists (a :: u), v.
    + now exists [], (a :: s).
Qed.

Lemma deriv_spec (a : char) (r : regex) (s : pystr) :
  lang (deriv a r) s <-> lang r (a :: s).
Proof.
  revert s.
  induction r as [| |c|p|r1 IH1 r2 IH2|r1 IH1 r2 IH2|r IH]; intros s; simpl.
  - rewrite !lang_void. reflexivity.
  - rewrite lang_void, lang_eps. split; [contradiction | discriminate].
  - rewrite lang_chr. destruct (char_eqb a c) eqn:E.
    + apply char_eqb_eq in E. subst. rewrite lang_eps.
      split; [now intros -> | now intros [= ->]].
    + rewrite lang_void. split; [contradiction|].
      intros [= -> _]. rewrite (proj2 (char_eqb_eq c c) eq_refl) in E.
      discriminate.
  - rewrite lang_class. destruct (p a) eqn:E.
    + rewrite lang_eps. split.
      * intros ->. now exists a.
      * now intros [c [[= -> ->] _]].
    + rewrite lang_void. split; [contradiction|].
      intros [c [[= -> ->] H]]. congruence.
  - rewrite lang_seq_cons. destruct (nullable r1) eqn:N.
    + rewrite lang_alt, lang_seq, IH2. split.
      * intros [[u [v [-> [Hu Hv]]]] | H].
        -- left. exists u, v. rewrite <- IH1. now split.
        -- right. split; [now apply nullable_spec | assumption].
      * intros [[u [v [-> [Hu Hv]]]] | [_ H]].
        -- left. exists u, v. rewrite IH1. now split.
        -- now right.
    + rewrite lang_seq. split.
      * intros [u [v [-> [Hu Hv]]]]. left. exists u, v. rewrite <- IH1. now split.
      * intros [[u [v [-> [Hu Hv]]]] | [H _]].
        -- exists u, v. rewrite IH1. now split.
        -- apply nullable_spec in H. congruence.
  - rewrite !lang_alt, IH1, IH2. reflexivity.
  - rewrite lang_seq. split.
    + intros [u [v [-> [Hu Hv]]]]. apply IH in Hu.
      change (lang (Star r) ((a :: u) ++ v)). now constructor.
    + intros H. apply star_cons in H as [u [v [-> [Hu Hv]]]].
      exists u, v. rewrite IH. now split.
Qed.

(** [re_match] succeeds exactly when a prefix of the string is a word of
    the pattern. *)
Lemma re_match_spec (r : regex) (s : pystr) :
  re_match r s = true <-> exists u v, s = u ++ v /\ lang r u.
Proof.
  revert r; induction s as [|a s IH]; intros r; simpl.
  - rewrite orb_false_r, nullable_spec. split.
    + intros H. now exists [], [].
    + intros [u [v [E H]]]. symmetry in E. apply app_eq_nil in E as [-> _].
      assumption.
  - rewrite orb_true_iff, nullable_spec, IH. split.
    + intros [H | [u [v [-> H]]]].
      * now exists [], (a :: s).
      * exists (a :: u), v. split; [reflexivity | now apply deriv_spec].
    + intros [u [v [E H]]]. destruct u as [|x u]; simpl in E.
      * now left.
      * injection E as -> ->. right. exists u, v.
        split; [reflexivity | now apply deriv_spec].
Qed.

Lemma lang_star_class (p : char -> bool) (u : pystr) :
  lang (Star (Class p)) u <-> Forall (fun c => p c = true) u.
Proof.
  split.
  - intros H. remember (Star (Class p)) as sr eqn:E.
    induction H as [| | | | | | |r' u v Hu _ Hv IHv]; try discriminate.
    + constructor.
    + injection E as ->. inversion Hu; subst. simpl.
      constructor; [assumption | now apply IHv].
  - induction 1 as [|c u Hc _ IH].
    + constructor.
    + change (lang (Star (Class p)) ([c] ++ u)). constructor; [now constructor | assumption].
Qed.

Lemma lang_word (w u : pystr) : lang (word w) u <-> u = w.
Proof.
  revert u; induction w as [|c w IH]; intros u; simpl.
  - split; intros H; [now inversion H | subst; constructor].
  - split.
    + intros H. inversion H as [| | |? ? x y Hx Hy| | | |]; subst.
      inversion Hx; subst. apply IH in Hy. now subst.
    + intros ->. change (lang (Seq (Chr c) (word w)) ([c] ++ w)).
      constructor; [constructor | now apply IH].
Qed.

(* ===================================================================== *)
(** ** AnnotationLines *)
(* ===================================================================== *)

Lemma py_index_in_range {A : Type} (l : list A) (i : Z) :
  0 <= i < Z.of_nat (List.length l) ->
  exists x, nth_error l (Z.to_nat i) = Some x /\ py_index l i = Val x.
Proof.
  intros H. unfold py_index.
  destruct (i <? 0) eqn:E1; [apply Z.ltb_lt in E1; lia|].
  rewrite E1. simpl.
  destruct (Z.of_nat (List.length l) <=? i) eqn:E2; [apply Z.leb_le in E2; lia|].
  destruct (nth_error l (Z.to_nat i)) as [x|] eqn:E3.
  - now exists x.
  - apply nth_error_None in E3. lia.
Qed.

(** The pattern of the class matches the lines that start with the marker. *)
Lemma annotation_regex_spec (line : pystr) :
  re_match AnnotationLines._ANNOTATION_REGEX line = true <-> marker_at_start line.
Proof.
  rewrite re_match_spec. unfold AnnotationLines._ANNOTATION_REGEX, marker_at_start.
  split.
  - intros [u [rest [-> H]]].
    apply lang_seq in H as [ws1 [u1 [-> [H1 H]]]].
    apply lang_seq in H as [h [u2 [-> [Hh H]]]].
    apply lang_seq in H as [ws2 [u3 [-> [H2 H]]]].
    apply lang_seq in H as [d1 [u4 [-> [Hd1 H]]]].
    apply lang_seq in H as [d2 [u5 [-> [Hd2 H]]]].
    apply lang_seq in H as [ws3 [t [-> [H3 H]]]].
    apply lang_star_class in H1, H2, H3.
    apply lang_chr in Hh, Hd1, Hd2. apply lang_word in H. subst.
    exists ws1, ws2, ws3, rest. repeat split; try assumption.
    rewrite <- !app_assoc. reflexivity.
  - intros [ws1 [ws2 [ws3 [rest [H1 [H2 [H3 ->]]]]]]].
    exists (ws1 ++ [chr "#"] ++ ws2 ++ [chr "."] ++ [chr "."] ++ ws3 ++ str "toggle"), rest.
    split.
    + rewrite <- !app_assoc. reflexivity.
    + repeat (apply L_seq); try apply L_chr;
        try (apply lang_star_class; assumption).
      now apply lang_word.
Qed.

(** [is_line_annotated] never raises: the guard keeps the index in range. *)
Lemma is_line_annotated_total (self : AnnotationLines.t) (n : Z) :
  AnnotationLines.is_line_annotated self n = Val (line_annotated self n).
Proof.
  unfold line_annotated, AnnotationLines.is_line_annotated,
    AnnotationLines._get_line_contents, AnnotationLines._line_count.
  destruct ((n <? 1) || _) eqn:G; [reflexivity|].
  apply orb_false_iff in G as [G1 G2].
  apply Z.ltb_ge in G1, G2.
  destruct (py_index_in_range (AnnotationLines._list_of_string_lines self) (n - 1))
    as [x [_ ->]]; [lia | reflexivity].
Qed.

Lemma is_line_annotated_true (self : AnnotationLines.t) (n : Z) :
  AnnotationLines.is_line_annotated self n = Val true <->
  1 <= n /\
  exists line,
    nth_error (AnnotationLines._list_of_string_lines self) (Z.to_nat (n - 1))
      = Some line /\
    marker_at_start line.
Proof.
  unfold AnnotationLines.is_line_annotated,
    AnnotationLines._get_line_contents, AnnotationLines._line_count.
  destruct ((n <? 1) || _) eqn:G.
  - split; [discriminate|]. intros [Hn [line [Hl _]]].
    apply orb_true_iff in G as [G | G].
    + apply Z.ltb_lt in G. lia.
    + apply Z.ltb_lt in G.
      assert (nth_error (AnnotationLines._list_of_string_lines self)
                (Z.to_nat (n - 1)) <> None) as Hs by congruence.
      apply nth_error_Some in Hs. lia.
  - apply orb_false_iff in G as [G1 G2]. apply Z.ltb_ge in G1, G2.
    destruct (py_index_in_range (AnnotationLines._list_of_string_lines self) (n - 1))
      as [x [Hx ->]]; [lia|].
    split.
    + intros [= H]. split; [lia|]. exists x. split; [assumption|].
      now apply annotation_regex_spec.
    + intros [_ [line [Hl Hm]]]. rewrite Hx in Hl. injection Hl as ->.
      f_equal. now apply annotation_regex_spec.
Qed.

(** C3: a line is annotated exactly when it starts, after optional
    whitespace, with [#], optional whitespace, [..], optional whitespace
    and the token [toggle]; the match is anchored at the start of the line.
    The lines [# .. toggle_name: FOO], [#..toggle] and [   # .. toggle] are
    annotated, and [x = 1  # .. toggle] is not. *)
Theorem C3_annotated_iff_marker_at_start :
  (forall (self : AnnotationLines.t) (n : Z),
      AnnotationLines.is_line_annotated self n = Val true <->
      1 <= n /\
      exists line,
        nth_error (AnnotationLines._list_of_string_lines self) (Z.to_nat (n - 1))
          = Some line /\
        marker_at_start line) /\
  AnnotationLines.is_line_annotated
    (AnnotationLines.init (str "# .. toggle_name: FOO")) 1 = Val true /\
  AnnotationLines.is_line_annotated
    (AnnotationLines.init (str "#..toggle")) 1 = Val true /\
  AnnotationLines.is_line_annotated
    (AnnotationLines.init (str "   # .. toggle")) 1 = Val true /\
  AnnotationLines.is_line_annotated
    (AnnotationLines.init (str "x = 1  # .. toggle")) 1 = Val false.
Proof.
  split; [exact is_line_annotated_true|].
  repeat split; vm_compute; reflexivity.
Qed.

(** C4: for a line number below 1 or beyond the number of lines of the
    module, [is_line_annotated] returns False and raises nothing. *)
Theorem C4_out_of_range_is_false (self : AnnotationLines.t) (n : Z) :
  n < 1 \/ AnnotationLines._line_count self < n ->
  AnnotationLines.is_line_annotated self n = Val false.
Proof.
  intros H. unfold AnnotationLines.is_line_annotated.
  destruct (n <? 1) eqn:E1; [reflexivity|].
  destruct (AnnotationLines._line_count self <? n) eqn:E2; [reflexivity|].
  apply Z.ltb_ge in E1, E2. lia.
Qed.

Lemma C4_out_of_range_is_false_witness :
  (0 < 1 \/
   AnnotationLines._line_count (AnnotationLines.init (str "# .. toggle")) < 0) /\
  AnnotationLines.is_line_annotated
    (AnnotationLines.init (str "# .. toggle")) 0 = Val false.
Proof.
  split.
  - left. lia.
  - apply (C4_out_of_range_is_false (AnnotationLines.init (str "# .. toggle")) 0).
    left. lia.
Defined.

(* ===================================================================== *)
(** ** FeatureToggleChecker *)
(* ===================================================================== *)

Section CallChecks.
Import FeatureToggleChecker.

Lemma capital_regex_spec (name : pystr) :
  re_match _CHECK_CAPITAL_REGEX name = true <-> starts_with_capital name.
Proof.
  unfold _CHECK_CAPITAL_REGEX, starts_with_capital. rewrite re_match_spec.
  split.
  - intros [u [v [-> H]]]. apply lang_class in H as [c [-> Hc]].
    now exists c, v.
  - intros [c [rest [-> Hc]]]. exists [c], rest.
    split; [reflexivity | now constructor].
Qed.

Lemma illegal_function_not_capital (name : pystr) :
  In name _ILLEGAL_WAFFLE_FUNCTIONS -> re_match _CHECK_CAPITAL_REGEX name = false.
Proof.
  intros [<- | [<- | []]]; reflexivity.
Qed.

Lemma capital_not_illegal_function (name : pystr) :
  starts_with_capital name -> mem name _ILLEGAL_WAFFLE_FUNCTIONS = false.
Proof.
  intros H. apply capital_regex_spec in H.
  destruct (mem name _ILLEGAL_WAFFLE_FUNCTIONS) eqn:E; [|reflexivity].
  apply mem_spec, illegal_function_not_capital in E. congruence.
Qed.

Lemma find_app {A : Type} (f : A -> bool) (l1 l2 : list A) :
  find f (l1 ++ l2) =
  match find f l1 with
  | Some x => Some x
  | None => find f l2
  end.
Proof.
  induction l1 as [|x l1 IH]; simpl; [reflexivity|].
  destruct (f x); [reflexivity | exact IH].
Qed.

(** The loop over the keywords returns the literal of the last keyword
    named [flag_name], or the initial name, and emits nothing. *)
Lemma keywords_loop_spec (kws : list Keyword.t) (init : pyobj)
    (ms : list message) :
  (forall k, In k kws -> is_flag_name k = true ->
             Node.value (Keyword.value k) <> None) ->
  keywords_loop kws init ms =
  (Val match find is_flag_name (rev kws) with
       | Some k =>
           match Node.value (Keyword.value k) with
           | Some v => v
           | None => init
           end
       | None => init
       end, ms).
Proof.
  unfold keywords_loop. revert init.
  induction kws as [|k kws IH]; intros init Hlit; [reflexivity|].
  simpl for_loop. unfold bind at 1.
  assert (Hk : exists init',
             (match Keyword.arg k with
              | Some a =>
                  if PyStr.eqb a (str "flag_name")
                  then getattr (Node.value (Keyword.value k))
                  else ret init
              | None => ret init
              end) ms = (Val init', ms) /\
             init' = if is_flag_name k
                     then match Node.value (Keyword.value k) with
                          | Some v => v
                          | None => init
                          end
                     else init).
  { unfold is_flag_name. destruct (Keyword.arg k) as [a|] eqn:Ea.
    - destruct (PyStr.eqb a (str "flag_name")) eqn:Eb.
      + destruct (Node.value (Keyword.value k)) as [v|] eqn:Ev.
        * now exists v.
        * exfalso. apply (Hlit k); [now left | | assumption].
          unfold is_flag_name. now rewrite Ea.
      + now exists init.
    - now exists init. }
  destruct Hk as [init' [-> Hinit']].
  rewrite IH by (intros k' Hin; apply Hlit; now right).
  f_equal. f_equal. simpl rev. rewrite find_app.
  destruct (find is_flag_name (rev kws)) as [k'|] eqn:Ef.
  - apply find_some in Ef as [Hin Hf]. apply in_rev in Hin.
    destruct (Node.value (Keyword.value k')) eqn:Ev; [reflexivity|].
    exfalso. apply (Hlit k'); [now right | assumption | assumption].
  - simpl. rewrite Hinit'. destruct (is_flag_name k); reflexivity.
Qed.

Lemma keywords_of_call_spec (node : Call.t) (ms : list message) :
  flag_name_literal node ->
  match Call.keywords node with
  | Some keywords => keywords_loop keywords (PStr UNKNOWN)
  | None => ret (PStr UNKNOWN)
  end ms =
  (Val match flag_name_value node with
       | Some v => v
       | None => PStr UNKNOWN
       end, ms).
Proof.
  unfold flag_name_literal, flag_name_value, call_keywords.
  destruct (Call.keywords node) as [kws|]; intros Hlit.
  - rewrite keywords_loop_spec by assumption.
    destruct (find is_flag_name (rev kws)) as [k|] eqn:Ef; [|reflexivity].
    destruct (Node.value (Keyword.value k)); reflexivity.
  - reflexivity.
Qed.

(** The second positional argument is read only when it is there. *)
Lemma second_positional_spec (node : Call.t) (ms : list message) :
  (if 2 <=? Z.of_nat (List.length (Call.args node)) then
     a <- lift (py_index (Call.args node) 1) ;;
     ret (PStr (Node.as_string a))
   else ret (PStr UNKNOWN)) ms = (Val (second_positional_or_unknown node), ms).
Proof.
  unfold second_positional_or_unknown.
  destruct (2 <=? Z.of_nat (List.length (Call.args node))) eqn:E.
  - apply Z.leb_le in E.
    destruct (py_index_in_range (Call.args node) 1) as [x [Hx Hi]]; [lia|].
    unfold bind. rewrite Hi. simpl.
    destruct (Call.args node) as [|a0 [|a1 rest]]; simpl in *; try lia.
    now injection Hx as ->.
  - apply Z.leb_gt in E.
    destruct (Call.args node) as [|a0 [|a1 rest]]; simpl in *;
      try reflexivity; lia.
Qed.

Lemma first_positional_spec (node : Call.t) (ms : list message) :
  (if 1 <=? Z.of_nat (List.length (Call.args node)) then
     a <- lift (py_index (Call.args node) 0) ;;
     ret (Node.as_string a)
   else ret UNKNOWN) ms =
  (Val match Call.args node with
       | a :: _ => Node.as_string a
       | [] => UNKNOWN
       end, ms).
Proof.
  destruct (1 <=? Z.of_nat (List.length (Call.args node))) eqn:E.
  - apply Z.leb_le in E.
    destruct (py_index_in_range (Call.args node) 0) as [x [Hx Hi]]; [lia|].
    unfold bind. rewrite Hi. simpl.
    destruct (Call.args node) as [|a0 rest]; simpl in *; try lia.
    now injection Hx as ->.
  - apply Z.leb_gt in E.
    destruct (Call.args node) as [|a0 rest]; simpl in *;
      try reflexivity; lia.
Qed.

(** What the waffle-class check does on any sink. *)
Lemma check_waffle_class_annotated_spec (self : t) (node : Call.t)
    (func_name : pystr) (ms : list message) :
  Node.name (Call.func node) = Some func_name ->
  starts_with_capital func_name ->
  ends_with_one_of func_name _WAFFLE_TOGGLE_CLASSES ->
  flag_name_literal node ->
  check_waffle_class_annotated self node ms =
  (Val tt,
   ms ++ if line_annotated (_lines self) (Call.lineno node - 1) then []
         else [needs_doc (reported_toggle_name node) (AtCall node)]).
Proof.
  intros Hname Hcap Hend Hlit. unfold check_waffle_class_annotated.
  rewrite Hname.
  apply capital_regex_spec in Hcap. apply endswith_any_spec in Hend.
  rewrite Hcap, Hend. cbn [negb].
  unfold bind at 1. rewrite is_line_annotated_total. cbn [lift]. unfold ret at 1.
  destruct (line_annotated (_lines self) (Call.lineno node - 1)); cbn [negb].
  - unfold ret. now rewrite app_nil_r.
  - unfold bind at 1. rewrite keywords_of_call_spec by assumption.
    unfold reported_toggle_name.
    destruct (flag_name_value node) as [v|].
    + destruct (py_eq_str v UNKNOWN) eqn:Ev.
      * destruct v as [s| | | | |]; try discriminate.
        simpl in Ev. apply pystr_eqb_eq in Ev. subst s.
        unfold bind at 1. rewrite second_positional_spec. reflexivity.
      * unfold bind at 1. reflexivity.
    + unfold bind at 1. cbn [py_eq_str].
      replace (PyStr.eqb UNKNOWN UNKNOWN) with true
        by (symmetry; apply pystr_eqb_refl).
      rewrite second_positional_spec. reflexivity.
Qed.

(** What the illegal-usage check does on any sink. *)
Lemma check_illegal_waffle_usage_spec (self : t) (node : Call.t)
    (func_name : pystr) (ms : list message) :
  Node.name (Call.func node) = Some func_name ->
  check_illegal_waffle_usage self node ms =
  (Val tt,
   ms ++ if mem func_name _ILLEGAL_WAFFLE_FUNCTIONS
         then [illegal_usage (first_positional_or_unknown node) (AtCall node)]
         else []).
Proof.
  intros Hname. unfold check_illegal_waffle_usage. rewrite Hname.
  destruct (mem func_name _ILLEGAL_WAFFLE_FUNCTIONS).
  - unfold bind. rewrite first_positional_spec.
    unfold first_positional_or_unknown.
    destruct (Call.args node); reflexivity.
  - unfold ret. now rewrite app_nil_r.
Qed.

End CallChecks.

Section CallClaims.
Import FeatureToggleChecker.

Lemma visit_call_spec (self : t) (node : Call.t) (func_name : pystr) :
  Node.name (Call.func node) = Some func_name ->
  starts_with_capital func_name ->
  ends_with_one_of func_name _WAFFLE_TOGGLE_CLASSES ->
  flag_name_literal node ->
  visit_call self node [] =
  (Val tt,
   if line_annotated (_lines self) (Call.lineno node - 1) then []
   else [needs_doc (reported_toggle_name node) (AtCall node)]).
Proof.
  intros Hname Hcap Hend Hlit. unfold visit_call, bind.
  rewrite (check_waffle_class_annotated_spec self node func_name)
    by assumption.
  rewrite (check_illegal_waffle_usage_spec self node func_name) by assumption.
  rewrite (capital_not_illegal_function func_name) by assumption.
  now rewrite app_nil_r.
Qed.

(** C1, as the code has it: for a call whose callee is a simple name that
    starts with a letter of [A-Z] and ends with WaffleFlag, WaffleSwitch or
    CourseWaffleFlag, and whose [flag_name] keywords have literal values,
    no message is emitted when the line before the call is annotated;
    otherwise exactly one "missing annotation" message is emitted, on the
    call node, and its argument is the value of the last [flag_name]
    keyword if there is one and its value is not the string "UNKNOWN",
    else the rendering of the second positional argument if the call has
    two or more, else "UNKNOWN".  This holds of the check and of
    [visit_call], which runs it. *)
Theorem C1_waffle_class_missing_annotation
    (self : t) (node : Call.t) (func_name : pystr) :
  Node.name (Call.func node) = Some func_name ->
  starts_with_capital func_name ->
  ends_with_one_of func_name _WAFFLE_TOGGLE_CLASSES ->
  flag_name_literal node ->
  (AnnotationLines.is_line_annotated (_lines self) (Call.lineno node - 1)
     = Val true ->
   result (visit_call self node) = Val tt /\
   emitted (visit_call self node) = [] /\
   emitted (check_waffle_class_annotated self node) = []) /\
  (AnnotationLines.is_line_annotated (_lines self) (Call.lineno node - 1)
     = Val false ->
   result (visit_call self node) = Val tt /\
   emitted (visit_call self node)
     = [needs_doc (reported_toggle_name node) (AtCall node)] /\
   emitted (check_waffle_class_annotated self node)
     = [needs_doc (reported_toggle_name node) (AtCall node)]).
Proof.
  intros Hname Hcap Hend Hlit.
  unfold result, emitted.
  rewrite (visit_call_spec self node func_name) by assumption.
  rewrite (check_waffle_class_annotated_spec self node func_name)
    by assumption.
  rewrite is_line_annotated_total.
  split; intros [= ->]; repeat split; reflexivity.
Qed.

Lemma C1_waffle_class_missing_annotation_witness :
  Node.name (Call.func Samples.unknown_call) = Some (str "WaffleFlag") /\
  starts_with_capital (str "WaffleFlag") /\
  ends_with_one_of (str "WaffleFlag") _WAFFLE_TOGGLE_CLASSES /\
  flag_name_literal Samples.unknown_call /\
  emitted (visit_call (visit_module Samples.unknown_call_text)
             Samples.unknown_call)
    = [needs_doc (reported_toggle_name Samples.unknown_call)
         (AtCall Samples.unknown_call)].
Proof.
  assert (H1 : Node.name (Call.func Samples.unknown_call)
               = Some (str "WaffleFlag")) by reflexivity.
  assert (H2 : starts_with_capital (str "WaffleFlag")).
  { exists (chr "W"), (str "affleFlag"). split; reflexivity. }
  assert (H3 : ends_with_one_of (str "WaffleFlag") _WAFFLE_TOGGLE_CLASSES).
  { exists [], (str "WaffleFlag"). split; [left; reflexivity | reflexivity]. }
  assert (H4 : flag_name_literal Samples.unknown_call).
  { intros k [<- | []] _. discriminate. }
  refine (conj H1 (conj H2 (conj H3 (conj H4 _)))).
  apply (C1_waffle_class_missing_annotation
           (visit_module Samples.unknown_call_text) Samples.unknown_call
           (str "WaffleFlag") H1 H2 H3 H4).
  reflexivity.
Defined.

(** C1 as stated fails: on [WaffleFlag('ns', 'x', flag_name='UNKNOWN')]
    with no annotation before it, the [flag_name] keyword is present with
    value "UNKNOWN", and the message names the second positional
    argument instead. *)
Lemma C1_counterexample_flag_name_unknown :
  Node.name (Call.func Samples.unknown_call) = Some (str "WaffleFlag") /\
  AnnotationLines.is_line_annotated
    (_lines (visit_module Samples.unknown_call_text))
    (Call.lineno Samples.unknown_call - 1) = Val false /\
  flag_name_value Samples.unknown_call = Some (PStr UNKNOWN) /\
  claimed_toggle_name Samples.unknown_call = PStr UNKNOWN /\
  emitted (check_waffle_class_annotated
             (visit_module Samples.unknown_call_text) Samples.unknown_call)
    = [needs_doc (PStr (str "'x'")) (AtCall Samples.unknown_call)] /\
  emitted (check_waffle_class_annotated
             (visit_module Samples.unknown_call_text) Samples.unknown_call)
    <> [needs_doc (claimed_toggle_name Samples.unknown_call)
          (AtCall Samples.unknown_call)].
Proof.
  repeat split; try reflexivity.
  intros H. vm_compute in H. discriminate H.
Qed.

(** C2: a call whose callee is the simple name [flag_is_active] or
    [switch_is_active] gets exactly one "illegal usage" message, whatever
    the lines of the module are; its argument is the rendering of the
    first positional argument, or "UNKNOWN" when there is none. *)
Theorem C2_illegal_waffle_usage
    (self : t) (node : Call.t) (func_name : pystr) :
  Node.name (Call.func node) = Some func_name ->
  In func_name _ILLEGAL_WAFFLE_FUNCTIONS ->
  result (visit_call self node) = Val tt /\
  emitted (visit_call self node)
    = [illegal_usage (first_positional_or_unknown node) (AtCall node)] /\
  emitted (check_illegal_waffle_usage self node)
    = [illegal_usage (first_positional_or_unknown node) (AtCall node)].
Proof.
  intros Hname Hin.
  assert (Hw : forall ms, check_waffle_class_annotated self node ms = (Val tt, ms)).
  { intros ms. unfold check_waffle_class_annotated. rewrite Hname.
    now rewrite (illegal_function_not_capital func_name Hin). }
  unfold result, emitted, visit_call, bind. rewrite Hw.
  rewrite (check_illegal_waffle_usage_spec self node func_name) by assumption.
  apply mem_spec in Hin. rewrite Hin. repeat split; reflexivity.
Qed.

Lemma C2_illegal_waffle_usage_witness :
  let node :=
    {| Call.lineno := 2;
       Call.func := Samples.name_node 2 "flag_is_active";
       Call.args := [Samples.const 2 "some_flag"];
       Call.keywords := None |} in
  let self := visit_module (str "# .. toggle_name: some_flag") in
  Node.name (Call.func node) = Some (str "flag_is_active") /\
  In (str "flag_is_active") _ILLEGAL_WAFFLE_FUNCTIONS /\
  emitted (visit_call self node)
    = [illegal_usage (PStr (str "'some_flag'")) (AtCall node)].
Proof.
  intros node self.
  assert (H1 : Node.name (Call.func node) = Some (str "flag_is_active"))
    by reflexivity.
  assert (H2 : In (str "flag_is_active") _ILLEGAL_WAFFLE_FUNCTIONS)
    by (left; reflexivity).
  refine (conj H1 (conj H2 _)).
  apply (C2_illegal_waffle_usage self node (str "flag_is_active") H1 H2).
Defined.

End CallClaims.

Section DictClaims.
Import FeatureToggleChecker.

(** The loop over the entries of the dictionary, on any sink. *)
Lemma features_loop_spec (self : t) (node : Dict.t)
    (items : list (Node.t * Node.t)) (ms : list message) :
  (forall item, In item items ->
     line_annotated (_lines self) (Node.lineno (fst item) - 1) = false ->
     Node.value (fst item) <> None) ->
  for_loop items tt
    (fun _ item =>
       let key := fst item in
       annotated <- lift (AnnotationLines.is_line_annotated
                            (_lines self) (Node.lineno key - 1)) ;;
       if negb annotated then
         django_feature_toggle_name <- getattr (Node.value key) ;;
         add_message TOGGLE_NOT_ANNOTATED_MESSAGE_ID
           [django_feature_toggle_name] (AtDict node)
       else ret tt) ms =
  (Val tt,
   ms ++ flat_map
           (fun item : Node.t * Node.t =>
              let key := fst item in
              if line_annotated (_lines self) (Node.lineno key - 1) then []
              else match Node.value key with
                   | Some v => [needs_doc v (AtDict node)]
                   | None => []
                   end)
           items).
Proof.
  revert ms. induction items as [|item items IH]; intros ms Hlit.
  - simpl. unfold ret. now rewrite app_nil_r.
  - simpl for_loop. unfold bind at 1. unfold bind at 1.
    rewrite is_line_annotated_total. cbn [lift]. unfold ret at 1.
    simpl flat_map.
    destruct (line_annotated (_lines self) (Node.lineno (fst item) - 1)) eqn:E;
      cbn [negb].
    + unfold ret at 1. rewrite IH by (intros i Hi; apply Hlit; now right).
      reflexivity.
    + destruct (Node.value (fst item)) as [v|] eqn:Ev.
      * unfold bind at 1. cbn [getattr]. unfold ret at 1.
        unfold add_message at 1.
        rewrite IH by (intros i Hi; apply Hlit; now right).
        now rewrite <- app_assoc.
      * exfalso. apply (Hlit item); [now left | assumption | assumption].
Qed.

(** C5: for a dictionary assigned to the simple name FEATURES, whose keys
    are literals where they are read, the line before each key's own line
    is probed, and each entry whose probe fails gets exactly one "missing
    annotation" message with the key's value for argument, in the order
    of the entries; every message is on the dictionary node, so at the
    line of the dictionary and not of the key. *)
Theorem C5_features_dict_entries
    (self : t) (node : Dict.t) (target : Node.t) (others : list Node.t) :
  Dict.parent_targets node = Some (target :: others) ->
  Node.name target = Some (str "FEATURES") ->
  (forall item, In item (Dict.items node) ->
     AnnotationLines.is_line_annotated
       (_lines self) (Node.lineno (fst item) - 1) = Val false ->
     Node.value (fst item) <> None) ->
  result (check_django_feature_flag_annotated self node) = Val tt /\
  emitted (check_django_feature_flag_annotated self node)
    = features_messages (_lines self) node /\
  Forall (fun m => msg_node m = AtDict node /\
                   anchor_line (msg_node m) = Dict.lineno node)
    (emitted (check_django_feature_flag_annotated self node)).
Proof.
  intros Htargets Hname Hlit.
  assert (Hrun : check_django_feature_flag_annotated self node []
                 = (Val tt, features_messages (_lines self) node)).
  { unfold check_django_feature_flag_annotated,
      try_except_AttributeError_return.
    rewrite Htargets. unfold bind at 1. cbn [getattr]. unfold ret at 1.
    unfold bind at 1.
    destruct (py_index_in_range (target :: others) 0) as [x [Hx ->]];
      [simpl; lia|].
    simpl in Hx. injection Hx as <-.
    cbn [lift]. unfold ret at 1. rewrite Hname. cbn [getattr].
    unfold ret at 1. rewrite pystr_eqb_refl.
    rewrite features_loop_spec; [reflexivity|].
    intros item Hin Hann. apply Hlit; [assumption|].
    rewrite is_line_annotated_total. now rewrite Hann. }
  unfold result, emitted. rewrite Hrun. simpl.
  repeat split.
  unfold features_messages. apply Forall_forall. intros m Hm.
  apply in_flat_map in Hm as [item [_ Hm]]. simpl in Hm.
  destruct (line_annotated _ _); [contradiction|].
  destruct (Node.value (fst item)); [|contradiction].
  destruct Hm as [<- | []]. split; reflexivity.
Qed.

End DictClaims.

Lemma C5_features_dict_entries_witness :
  Dict.parent_targets Samples.features_dict
    = Some [Samples.name_node 1 "FEATURES"] /\
  Node.name (Samples.name_node 1 "FEATURES") = Some (str "FEATURES") /\
  emitted (FeatureToggleChecker.check_django_feature_flag_annotated
             (FeatureToggleChecker.visit_module Samples.features_text)
             Samples.features_dict)
    = [needs_doc (PStr (str "B")) (AtDict Samples.features_dict)].
Proof.
  assert (H1 : Dict.parent_targets Samples.features_dict
               = Some [Samples.name_node 1 "FEATURES"]) by reflexivity.
  assert (H2 : Node.name (Samples.name_node 1 "FEATURES")
               = Some (str "FEATURES")) by reflexivity.
  assert (H3 : forall item, In item (Dict.items Samples.features_dict) ->
            AnnotationLines.is_line_annotated
              (FeatureToggleChecker._lines
                 (FeatureToggleChecker.visit_module Samples.features_text))
              (Node.lineno (fst item) - 1) = Val false ->
            Node.value (fst item) <> None).
  { intros item [<- | [<- | []]] _; discriminate. }
  refine (conj H1 (conj H2 _)).
  rewrite (proj1 (proj2 (C5_features_dict_entries
                           (FeatureToggleChecker.visit_module Samples.features_text)
                           Samples.features_dict
                           (Samples.name_node 1 "FEATURES") [] H1 H2 H3))).
  reflexivity.
Defined.


(** C5 as stated fails.  By design only the first target of a plain
    assignment is looked at: the dictionaries of
    [FEATURES: dict = {'A': True}] and of [OTHER = FEATURES = {'A': True}]
    get no message although the key follows no annotation.  And in
    [FEATURES = {'A': True, B: False, 'C': True}] the key [B] is not a
    literal: the check raises after the message for 'A', and the entry 'C'
    gets none. *)
Lemma C5_counterexample_entries_not_reported :
  (AnnotationLines.is_line_annotated
     (FeatureToggleChecker._lines
        (FeatureToggleChecker.visit_module Samples.annotated_assignment_text))
     (1 - 1) = Val false /\
   map (fun item : Node.t * Node.t => Node.lineno (fst item))
     (Dict.items Samples.annotated_assignment_dict) = [1] /\
   emitted (FeatureToggleChecker.check_django_feature_flag_annotated
              (FeatureToggleChecker.visit_module Samples.annotated_assignment_text)
              Samples.annotated_assignment_dict) = []) /\
  (Dict.parent_targets second_target_dict
     = Some [Samples.name_node 1 "OTHER"; Samples.name_node 1 "FEATURES"] /\
   emitted (FeatureToggleChecker.check_django_feature_flag_annotated
              (FeatureToggleChecker.visit_module
                 (str "OTHER = FEATURES = {'A': True}"))
              second_target_dict) = []) /\
  (Dict.parent_targets Samples.three_keys_dict
     = Some [Samples.name_node 1 "FEATURES"] /\
   In (Samples.const 1 "C", Samples.name_node 1 "True")
      (Dict.items Samples.three_keys_dict) /\
   AnnotationLines.is_line_annotated
     (FeatureToggleChecker._lines
        (FeatureToggleChecker.visit_module Samples.three_keys_text))
     (Node.lineno (Samples.const 1 "C") - 1) = Val false /\
   result (FeatureToggleChecker.check_django_feature_flag_annotated
             (FeatureToggleChecker.visit_module Samples.three_keys_text)
             Samples.three_keys_dict) = Exc AttributeError /\
   emitted (FeatureToggleChecker.check_django_feature_flag_annotated
              (FeatureToggleChecker.visit_module Samples.three_keys_text)
              Samples.three_keys_dict)
     = [needs_doc (PStr (str "A")) (AtDict Samples.three_keys_dict)] /\
   emitted (FeatureToggleChecker.check_django_feature_flag_annotated
              (FeatureToggleChecker.visit_module Samples.three_keys_text)
              Samples.three_keys_dict)
     <> features_messages
          (FeatureToggleChecker._lines
             (FeatureToggleChecker.visit_module Samples.three_keys_text))
          Samples.three_keys_dict).
Proof.
  repeat split; try reflexivity.
  - right. right. left. reflexivity.
  - intros H. vm_compute in H. discriminate H.
Qed.

(* ===================================================================== *)
(** ** FeatureToggleAnnotationChecker *)
(* ===================================================================== *)

Section GroupChecks.
Import Annotation FeatureToggleAnnotationChecker.

Lemma last_data_snoc (token : pystr) (l : list Annotation.t) (a : Annotation.t) :
  last_data token (l ++ [a]) =
  if PyStr.eqb (annotation_token a) token
  then Some (annotation_data a)
  else last_data token l.
Proof.
  unfold last_data. rewrite rev_app_distr. simpl.
  destruct (PyStr.eqb (annotation_token a) token); reflexivity.
Qed.

Lemma some_data_contains_snoc (token word : pystr) (l : list Annotation.t)
    (a : Annotation.t) :
  some_data_contains token word (l ++ [a]) =
  some_data_contains token word l
  || (PyStr.eqb (annotation_token a) token && py_in word (annotation_data a)).
Proof.
  unfold some_data_contains. rewrite existsb_app. simpl.
  now rewrite orb_false_r.
Qed.

Lemma last_data_none (token : pystr) (l : list Annotation.t) :
  last_data token l = None <-> ~ has_token token l.
Proof.
  unfold last_data, has_token. split.
  - intros H [a [Hin Ht]].
    destruct (find _ (rev l)) eqn:E; [discriminate|].
    apply in_rev in Hin. pose proof (find_none _ _ E a Hin) as Hf.
    simpl in Hf. subst. rewrite pystr_eqb_refl in Hf. discriminate.
  - intros H. destruct (find _ (rev l)) as [a|] eqn:E; [|reflexivity].
    exfalso. apply find_some in E as [Hin Ht]. apply H. exists a.
    split; [now apply in_rev | now apply pystr_eqb_eq].
Qed.

(** [word in data] is a substring test on a str and a membership test on
    a list. *)
Lemma py_in_spec (word : pystr) (d : data) :
  py_in word d = true <-> mentions word d.
Proof.
  unfold mentions. destruct d as [s | items]; simpl.
  - rewrite contains_spec. split.
    + intros [u [v H]]. left. now exists s, u, v.
    + intros [[s' [u [v [[= <-] H]]]] | [items [[=] _]]]. now exists u, v.
  - rewrite mem_spec. split.
    + intros H. right. now exists items.
    + intros [[s [u [v [[=] _]]]] | [items' [[= <-] H]]]. exact H.
Qed.

Lemma some_data_contains_spec (token word : pystr) (l : list Annotation.t) :
  some_data_contains token word l = true <->
  exists a, In a l /\ annotation_token a = token /\
            mentions word (annotation_data a).
Proof.
  unfold some_data_contains. rewrite existsb_exists. split.
  - intros [a [Hin H]]. apply andb_true_iff in H as [H1 H2].
    exists a. repeat split; [assumption | now apply pystr_eqb_eq |].
    now apply py_in_spec.
  - intros [a [Hin [Ht Hc]]]. exists a. split; [assumption|].
    apply andb_true_iff. split; [now apply pystr_eqb_eq | now apply py_in_spec].
Qed.

(** The five tokens are different strings, so one branch of the chain
    of tests is taken for each of them. *)
Ltac other_tokens :=
  repeat match goal with
    | |- context [PyStr.eqb ?a ?b] =>
        match a with
        | TOKEN_NAME => idtac
        | TOKEN_DESCRIPTION => idtac
        | TOKEN_USE_CASES => idtac
        | TOKEN_TARGET_REMOVAL_DATE => idtac
        | TOKEN_DEFAULT => idtac
        end;
        first [ change (PyStr.eqb a b) with true
              | change (PyStr.eqb a b) with false ]
    end.

Lemma loop_snoc (l : list Annotation.t) (a : Annotation.t) (acc : locals) :
  loop (l ++ [a]) acc =
  match loop l acc with
  | Val x => loop_body x a
  | Exc e => Exc e
  end.
Proof.
  revert acc. induction l as [|b l IH]; intros acc; simpl.
  - destruct (loop_body acc a); reflexivity.
  - destruct (loop_body acc b); [apply IH | reflexivity].
Qed.

(** One step of the loop on the values that the annotations before it
    left. *)
Lemma loop_body_final (l : list Annotation.t) (a : Annotation.t) :
  (annotation_token a = TOKEN_DESCRIPTION ->
   exists s, annotation_data a = Text s) ->
  loop_body (final_locals l) a = Val (final_locals (l ++ [a])).
Proof.
  intros Htext.
  unfold final_locals, loop_body. cbn [target_removal_date temporary_use_case
    toggle_name toggle_description toggle_default].
  rewrite !last_data_snoc, some_data_contains_snoc.
  destruct (PyStr.eqb (annotation_token a) TOKEN_NAME) eqn:E1.
  { apply pystr_eqb_eq in E1. rewrite E1. other_tokens.
    now rewrite orb_false_r. }
  destruct (PyStr.eqb (annotation_token a) TOKEN_DESCRIPTION) eqn:E2.
  { apply pystr_eqb_eq in E2. destruct (Htext E2) as [s ->].
    rewrite E2. other_tokens. cbn [strip_data stripped].
    now rewrite orb_false_r. }
  destruct (PyStr.eqb (annotation_token a) TOKEN_USE_CASES) eqn:E3.
  { apply pystr_eqb_eq in E3. rewrite E3. other_tokens.
    cbn [andb]. destruct (py_in (str "temporary") (annotation_data a)).
    - now rewrite orb_true_r.
    - now rewrite orb_false_r. }
  destruct (PyStr.eqb (annotation_token a) TOKEN_TARGET_REMOVAL_DATE) eqn:E4.
  { apply pystr_eqb_eq in E4. rewrite E4. other_tokens.
    now rewrite orb_false_r. }
  destruct (PyStr.eqb (annotation_token a) TOKEN_DEFAULT) eqn:E5.
  { now rewrite orb_false_r. }
  now rewrite orb_false_r.
Qed.

(** The loop returns when the descriptions are strings, and leaves in the
    locals the last name, description, removal date and default, and
    whether any use-case annotation said temporary. *)
Lemma loop_spec (annotations : list Annotation.t) :
  descriptions_are_text annotations ->
  loop annotations initial_locals = Val (final_locals annotations).
Proof.
  induction annotations as [|a l IH] using rev_ind; intros Htext;
    [reflexivity|].
  rewrite loop_snoc, IH.
  - apply loop_body_final. intros Ht. apply (Htext a); [|assumption].
    apply in_or_app. right. now left.
  - intros x Hx. apply Htext. apply in_or_app. now left.
Qed.

(** The only exception of the loop is the AttributeError of [strip] on a
    list; when it returns, the descriptions were strings. *)
Lemma loop_body_outcome (l : locals) (a : Annotation.t) :
  (exists l', loop_body l a = Val l' /\
              (annotation_token a = TOKEN_DESCRIPTION ->
               exists s, annotation_data a = Text s)) \/
  loop_body l a = Exc AttributeError.
Proof.
  unfold loop_body.
  destruct (PyStr.eqb (annotation_token a) TOKEN_NAME) eqn:E1.
  { left. eexists. split; [reflexivity|]. intros H. rewrite H in E1.
    discriminate E1. }
  destruct (PyStr.eqb (annotation_token a) TOKEN_DESCRIPTION) eqn:E2.
  { destruct (annotation_data a) as [s | items]; simpl.
    - left. eexists. split; [reflexivity|]. intros _. now exists s.
    - now right. }
  assert (Hd : annotation_token a = TOKEN_DESCRIPTION ->
               exists s, annotation_data a = Text s).
  { intros H. rewrite H, pystr_eqb_refl in E2. discriminate E2. }
  destruct (PyStr.eqb (annotation_token a) TOKEN_USE_CASES).
  { destruct (py_in _ _); left; eexists; split; try reflexivity; assumption. }
  destruct (PyStr.eqb (annotation_token a) TOKEN_TARGET_REMOVAL_DATE).
  { left; eexists; split; [reflexivity | assumption]. }
  destruct (PyStr.eqb (annotation_token a) TOKEN_DEFAULT);
    left; eexists; (split; [reflexivity | assumption]).
Qed.

Lemma loop_outcome (annotations : list Annotation.t) (acc : locals) :
  (exists l, loop annotations acc = Val l /\
             descriptions_are_text annotations) \/
  loop annotations acc = Exc AttributeError.
Proof.
  revert acc. induction annotations as [|a rest IH]; intros acc; simpl.
  - left. exists acc. split; [reflexivity | intros x []].
  - destruct (loop_body_outcome acc a) as [[l' [-> Ha]] | ->]; [|now right].
    destruct (IH l') as [[l [-> Hrest]] | ->]; [|now right].
    left. exists l. split; [reflexivity|].
    intros x [<- | Hx]; [exact Ha | now apply Hrest].
Qed.

(** The four rules emit their messages in order, on any sink. *)
Lemma rules_spec (l : locals) (node : ModuleNode.t) (ms : list message) :
  rules l node ms = (Val tt, ms ++ rule_messages l node).
Proof.
  unfold rules, rule_messages, bind, add_message, ret, annotation_message.
  destruct (data_falsy (toggle_name l)), (str_falsy (toggle_description l)),
    (temporary_use_case l && opt_falsy (target_removal_date l)),
    (not_in_True_False (toggle_default l));
    simpl; rewrite <- ?app_assoc, ?app_nil_r; reflexivity.
Qed.

(** The check on a group whose descriptions are strings. *)
Lemma check_group_spec (annotations : list Annotation.t) (node : ModuleNode.t) :
  descriptions_are_text annotations ->
  check_feature_toggles_annotation_group annotations node [] =
  (Val tt,
   match annotations with
   | [] => []
   | _ :: _ => rule_messages (final_locals annotations) node
   end).
Proof.
  intros Htext. unfold check_feature_toggles_annotation_group.
  destruct annotations as [|a l]; [reflexivity|].
  unfold bind. rewrite loop_spec by assumption. cbn [lift]. unfold ret.
  now rewrite rules_spec.
Qed.

(** The check on any group: it runs the rules on the final values, or
    raises in the loop before any message. *)
Lemma check_group_cases (annotations : list Annotation.t) (node : ModuleNode.t) :
  (descriptions_are_text annotations /\
   check_feature_toggles_annotation_group annotations node [] =
   (Val tt,
    match annotations with
    | [] => []
    | _ :: _ => rule_messages (final_locals annotations) node
    end)) \/
  check_feature_toggles_annotation_group annotations node []
    = (Exc AttributeError, []).
Proof.
  destruct (loop_outcome annotations initial_locals) as [[l [Hl Htext]] | Hl].
  - left. split; [assumption | now apply check_group_spec].
  - destruct annotations as [|a rest]; [discriminate Hl|].
    right. unfold check_feature_toggles_annotation_group, bind.
    now rewrite Hl.
Qed.

End GroupChecks.

Section GroupClaims.
Import Annotation FeatureToggleAnnotationChecker.

Lemma not_in_True_False_spec (x : option data) :
  not_in_True_False x = true <->
  x <> Some (Text (str "True")) /\ x <> Some (Text (str "False")).
Proof.
  unfold not_in_True_False. destruct x as [[s | items]|].
  - rewrite negb_true_iff. split.
    + intros H. split; intros [= ->]; discriminate H.
    + intros [H1 H2]. destruct (mem s [str "True"; str "False"]) eqn:E;
        [|reflexivity].
      apply mem_spec in E as [<- | [<- | []]]; congruence.
  - split; [intros _; split; discriminate | reflexivity].
  - split; [intros _; split; discriminate | reflexivity].
Qed.

(** Among the messages of the rules, the one on the default is there
    exactly when the default is neither "True" nor "False". *)
Lemma non_boolean_message_iff (l : locals) (node : ModuleNode.t) :
  (exists m, In m (rule_messages l node) /\
             msg_id m = NON_BOOLEAN_DEFAULT_VALUE) <->
  not_in_True_False (toggle_default l) = true.
Proof.
  unfold rule_messages. split.
  - intros [m [Hin Hid]].
    destruct (not_in_True_False (toggle_default l)); [reflexivity|].
    exfalso. rewrite app_nil_r in Hin.
    destruct (data_falsy (toggle_name l)), (str_falsy (toggle_description l)),
      (temporary_use_case l && opt_falsy (target_removal_date l));
      cbn [app] in Hin;
      repeat (destruct Hin as [<- | Hin]; [discriminate Hid|]);
      contradiction.
  - intros H. rewrite H.
    exists (annotation_message NON_BOOLEAN_DEFAULT_VALUE
              [obj_of_data (toggle_name l)] node).
    split; [|reflexivity].
    apply in_or_app. right. apply in_or_app. right. apply in_or_app. right.
    now left.
Qed.

(** C6: for a non-empty group, with the data of its descriptions a str as
    the search yields it, the "non-boolean default value" message is
    emitted exactly when the value of the group's [toggle_default] is not
    the string "True" or "False"; a group without the field gets the
    message, the value "true" gets it and "True" does not.  On any group
    at all, the message is emitted only when the value is neither. *)
Theorem C6_non_boolean_default :
  (forall (annotations : list Annotation.t) (node : ModuleNode.t),
      annotations <> [] ->
      descriptions_are_text annotations ->
      ((exists m,
           In m (emitted (check_feature_toggles_annotation_group annotations node))
           /\ msg_id m = NON_BOOLEAN_DEFAULT_VALUE) <->
       last_data TOKEN_DEFAULT annotations <> Some (Text (str "True")) /\
       last_data TOKEN_DEFAULT annotations <> Some (Text (str "False")))) /\
  (forall (annotations : list Annotation.t) (node : ModuleNode.t),
      annotations <> [] ->
      descriptions_are_text annotations ->
      ~ has_token TOKEN_DEFAULT annotations ->
      In (annotation_message NON_BOOLEAN_DEFAULT_VALUE
            [obj_of_data (or_empty (last_data TOKEN_NAME annotations))] node)
         (emitted (check_feature_toggles_annotation_group annotations node))) /\
  emitted (check_feature_toggles_annotation_group
             (Samples.with_default "true") Samples.a_module)
    = [annotation_message NON_BOOLEAN_DEFAULT_VALUE [PStr (str "X")]
         Samples.a_module] /\
  emitted (check_feature_toggles_annotation_group
             (Samples.with_default "True") Samples.a_module) = [] /\
  (forall (annotations : list Annotation.t) (node : ModuleNode.t),
      (exists m,
          In m (emitted (check_feature_toggles_annotation_group annotations node))
          /\ msg_id m = NON_BOOLEAN_DEFAULT_VALUE) ->
      last_data TOKEN_DEFAULT annotations <> Some (Text (str "True")) /\
      last_data TOKEN_DEFAULT annotations <> Some (Text (str "False"))).
Proof.
  assert (Hiff : forall annotations node, annotations <> [] ->
            descriptions_are_text annotations ->
            ((exists m,
                 In m (emitted (check_feature_toggles_annotation_group annotations node))
                 /\ msg_id m = NON_BOOLEAN_DEFAULT_VALUE) <->
             last_data TOKEN_DEFAULT annotations <> Some (Text (str "True")) /\
             last_data TOKEN_DEFAULT annotations <> Some (Text (str "False")))).
  { intros annotations node Hne Htext. unfold emitted.
    rewrite check_group_spec by assumption. cbn [snd].
    destruct annotations as [|a l]; [contradiction|].
    rewrite non_boolean_message_iff. apply not_in_True_False_spec. }
  split; [exact Hiff|]. split; [|split; [reflexivity | split; [reflexivity|]]].
  2: { intros annotations node Hm.
       destruct (check_group_cases annotations node) as [[Htext _] | Hrun].
       - destruct annotations as [|a l].
         + destruct Hm as [m [[] _]].
         + apply (Hiff (a :: l) node); [discriminate | assumption | assumption].
       - unfold emitted in Hm. rewrite Hrun in Hm. destruct Hm as [m [[] _]]. }
  intros annotations node Hne Htext Habs.
  apply last_data_none in Habs.
  unfold emitted. rewrite check_group_spec by assumption. cbn [snd].
  destruct annotations as [|a l]; [contradiction|].
  unfold rule_messages. cbn [final_locals toggle_default toggle_name].
  rewrite Habs. cbn [not_in_True_False].
  apply in_or_app. right. apply in_or_app. right. apply in_or_app. right.
  now left.
Qed.

Lemma sample_descriptions_are_text (d : string) :
  descriptions_are_text (Samples.with_default d).
Proof.
  intros a [<- | [<- | [<- | []]]] _; eexists; reflexivity.
Qed.

Lemma C6_non_boolean_default_witness :
  Samples.with_default "true" <> [] /\
  descriptions_are_text (Samples.with_default "true") /\
  exists m,
    In m (emitted (check_feature_toggles_annotation_group
                     (Samples.with_default "true") Samples.a_module))
    /\ msg_id m = NON_BOOLEAN_DEFAULT_VALUE.
Proof.
  assert (H : Samples.with_default "true" <> []) by discriminate.
  refine (conj H (conj (sample_descriptions_are_text "true") _)).
  apply (proj1 C6_non_boolean_default
           (Samples.with_default "true") Samples.a_module H
           (sample_descriptions_are_text "true")).
  split; discriminate.
Defined.

(** C7, as the code has it: a group in which the data of a
    [toggle_use_cases] annotation has "temporary" in it (as one of its
    tags when the data is the list that the search yields, as a substring
    when it is a str), and that has no [toggle_target_removal_date], gets
    the "missing target removal date" message with the toggle name for
    argument; when moreover the name is not empty, the description is not
    blank and the default is "True" or "False", it is the only message.
    The group with use cases [temporary, release] is such a group.  The
    descriptions are taken to be strings, as the search yields them. *)
Theorem C7_temporary_without_removal_date :
  (forall (annotations : list Annotation.t) (node : ModuleNode.t),
      descriptions_are_text annotations ->
      (exists a, In a annotations /\ annotation_token a = TOKEN_USE_CASES /\
                 mentions (str "temporary") (annotation_data a)) ->
      ~ has_token TOKEN_TARGET_REMOVAL_DATE annotations ->
      let name := or_empty (last_data TOKEN_NAME annotations) in
      let message :=
        annotation_message MISSING_TARGET_REMOVAL_DATE_MESSAGE_ID
          [obj_of_data name] node in
      In message
         (emitted (check_feature_toggles_annotation_group annotations node)) /\
      (data_falsy name = false ->
       stripped (last_data TOKEN_DESCRIPTION annotations) <> [] ->
       (last_data TOKEN_DEFAULT annotations = Some (Text (str "True")) \/
        last_data TOKEN_DEFAULT annotations = Some (Text (str "False"))) ->
       emitted (check_feature_toggles_annotation_group annotations node)
         = [message])) /\
  emitted (check_feature_toggles_annotation_group
             Samples.temporary_release Samples.a_module)
    = [annotation_message MISSING_TARGET_REMOVAL_DATE_MESSAGE_ID
         [PStr (str "X")] Samples.a_module] /\
  emitted (check_feature_toggles_annotation_group
             Samples.temporary_release_text Samples.a_module)
    = [annotation_message MISSING_TARGET_REMOVAL_DATE_MESSAGE_ID
         [PStr (str "X")] Samples.a_module].
Proof.
  split; [|split; reflexivity].
  intros annotations node Htext Htemp Habs name message.
  apply some_data_contains_spec in Htemp. apply last_data_none in Habs.
  assert (Hne : annotations <> []).
  { intros ->. discriminate Htemp. }
  unfold emitted. rewrite check_group_spec by assumption. cbn [snd].
  destruct annotations as [|a l]; [contradiction|].
  unfold rule_messages.
  cbn [final_locals toggle_default toggle_name toggle_description
         temporary_use_case target_removal_date].
  rewrite Htemp, Habs. cbn [opt_falsy andb]. fold name. fold message.
  split.
  - apply in_or_app. right. apply in_or_app. right. apply in_or_app. left.
    now left.
  - intros Hname Hdesc Hdef.
    assert (Hnb : not_in_True_False (last_data TOKEN_DEFAULT (a :: l)) = false).
    { destruct Hdef as [-> | ->]; reflexivity. }
    rewrite Hnb, Hname.
    destruct (stripped _); [contradiction|]. reflexivity.
Qed.

Lemma C7_temporary_without_removal_date_witness :
  In (annotation_message MISSING_TARGET_REMOVAL_DATE_MESSAGE_ID
        [PStr (str "X")] Samples.a_module)
     (emitted (check_feature_toggles_annotation_group
                 Samples.temporary_release Samples.a_module)).
Proof.
  apply (proj1 C7_temporary_without_removal_date
           Samples.temporary_release Samples.a_module).
  - intros a [<- | [<- | [<- | [<- | []]]]] H; try discriminate H.
    eexists; reflexivity.
  - exists (Samples.tags ".. toggle_use_cases:" ["temporary"; "release"]%string).
    split; [right; right; left; reflexivity|].
    split; [reflexivity|].
    right. eexists. split; [reflexivity | left; reflexivity].
  - intros [a [[<- | [<- | [<- | [<- | []]]]] H]]; discriminate H.
Defined.

(** C7 as stated fails: the use-case data is the list of the tags found,
    and a tag is compared whole.  The tag [temporary_rollout] contains the
    substring "temporary", the group has no removal date, and no message
    is emitted. *)
Lemma C7_counterexample_tag_is_compared_whole :
  last_data TOKEN_USE_CASES Samples.temporary_rollout
    = Some (Tags [str "temporary_rollout"]) /\
  contains (str "temporary") (str "temporary_rollout") = true /\
  last_data TOKEN_TARGET_REMOVAL_DATE Samples.temporary_rollout = None /\
  result (check_feature_toggles_annotation_group
            Samples.temporary_rollout Samples.a_module) = Val tt /\
  emitted (check_feature_toggles_annotation_group
             Samples.temporary_rollout Samples.a_module) = [].
Proof.
  repeat split; reflexivity.
Qed.

End GroupClaims.

Section DuplicateTokens.
Import Annotation FeatureToggleAnnotationChecker.

(** C8, as the code has it: when a token occurs more than once in a
    group (whose descriptions are strings, as the search yields them), the
    rules use the value of its last occurrence for the name, the
    description (trimmed), the target removal date and the default; for
    the use cases they use every occurrence: the toggle is temporary when
    the data of any [toggle_use_cases] annotation has "temporary" in it,
    as one of the tags of a list or as a substring of a str. *)
Theorem C8_last_occurrence_but_any_use_case
    (annotations : list Annotation.t) (node : ModuleNode.t) :
  descriptions_are_text annotations ->
  exists l,
    loop annotations initial_locals = Val l /\
    toggle_name l = or_empty (last_data TOKEN_NAME annotations) /\
    toggle_description l
      = stripped (last_data TOKEN_DESCRIPTION annotations) /\
    target_removal_date l = last_data TOKEN_TARGET_REMOVAL_DATE annotations /\
    toggle_default l = last_data TOKEN_DEFAULT annotations /\
    (temporary_use_case l = true <->
     exists a, In a annotations /\ annotation_token a = TOKEN_USE_CASES /\
               mentions (str "temporary") (annotation_data a)) /\
    emitted (check_feature_toggles_annotation_group annotations node)
      = match annotations with
        | [] => []
        | _ :: _ => rule_messages l node
        end.
Proof.
  intros Htext. exists (final_locals annotations).
  split; [now apply loop_spec|].
  unfold emitted. rewrite check_group_spec by assumption.
  repeat split; try reflexivity;
    cbn [final_locals temporary_use_case]; apply some_data_contains_spec.
Qed.

Lemma C8_last_occurrence_but_any_use_case_witness :
  descriptions_are_text Samples.two_use_cases /\
  exists l,
    loop Samples.two_use_cases initial_locals = Val l /\
    temporary_use_case l = true /\
    toggle_default l = Some (Text (str "True")).
Proof.
  assert (H : descriptions_are_text Samples.two_use_cases).
  { intros a [<- | [<- | [<- | [<- | [<- | []]]]]] Ht; try discriminate Ht.
    eexists; reflexivity. }
  refine (conj H _).
  destruct (C8_last_occurrence_but_any_use_case
              Samples.two_use_cases Samples.a_module H)
    as [l [Hl [_ [_ [_ [Hd [Ht _]]]]]]].
  exists l. split; [exact Hl|]. split; [|exact Hd].
  apply Ht.
  exists (Samples.tags ".. toggle_use_cases:" ["temporary"%string]).
  split; [right; right; left; reflexivity|].
  split; [reflexivity|].
  right. eexists. split; [reflexivity | left; reflexivity].
Defined.

(** C8 as stated fails for [toggle_use_cases]: in a group whose first
    use-case annotation says "temporary" and whose last says "open_edx",
    the last value does not have "temporary" in it, yet the rule on the
    removal date fires; with the last value alone no rule would. *)
Lemma C8_counterexample_first_use_case_counts :
  last_data TOKEN_USE_CASES Samples.two_use_cases
    = Some (Tags [str "open_edx"]) /\
  py_in (str "temporary") (Tags [str "open_edx"]) = false /\
  (exists l, loop Samples.two_use_cases initial_locals = Val l /\
             temporary_use_case l = true /\
             l <> last_write_wins_locals Samples.two_use_cases) /\
  emitted (check_feature_toggles_annotation_group
             Samples.two_use_cases Samples.a_module)
    = [annotation_message MISSING_TARGET_REMOVAL_DATE_MESSAGE_ID
         [PStr (str "X")] Samples.a_module] /\
  emitted (rules (last_write_wins_locals Samples.two_use_cases)
             Samples.a_module) = [].
Proof.
  repeat split; try reflexivity.
  eexists. split; [reflexivity|]. split; [reflexivity|].
  intros H. apply (f_equal temporary_use_case) in H. vm_compute in H.
  discriminate H.
Qed.

(** C9 fails on the code: a name that is present and not empty is never
    reported, wherever it stands in the group.  In the sample group the
    description comes first and the name second, and no message at all
    is emitted. *)
Theorem C9_name_position_is_not_checked :
  (forall (annotations : list Annotation.t) (node : ModuleNode.t),
      data_falsy (or_empty (last_data TOKEN_NAME annotations)) = false ->
      ~ In (annotation_message INCORRECT_NAME_MESSAGE_ID [] node)
           (emitted (check_feature_toggles_annotation_group annotations node))) /\
  option_map annotation_token (hd_error Samples.name_second)
    = Some TOKEN_DESCRIPTION /\
  last_data TOKEN_NAME Samples.name_second = Some (Text (str "X")) /\
  emitted (check_feature_toggles_annotation_group
             Samples.name_second Samples.a_module) = [].
Proof.
  split; [|repeat split; reflexivity].
  intros annotations node Hname Hin. unfold emitted in Hin.
  destruct (check_group_cases annotations node) as [[_ Hrun] | Hrun];
    rewrite Hrun in Hin; cbn [snd] in Hin; [|contradiction].
  destruct annotations as [|a l]; [contradiction|].
  unfold rule_messages in Hin.
  cbn [final_locals toggle_name] in Hin. rewrite Hname in Hin.
  cbn [app] in Hin.
  repeat (apply in_app_or in Hin as [Hin | Hin]);
    match type of Hin with
    | In _ (if ?b then _ else _) => destruct b
    end;
    try contradiction; destruct Hin as [Hin | []]; discriminate Hin.
Qed.

(** C10: on an empty group the check returns at once: it emits no
    message, although the name, the description and the default are
    all absent. *)
Theorem C10_empty_group_no_message (node : ModuleNode.t) :
  result (check_feature_toggles_annotation_group [] node) = Val tt /\
  emitted (check_feature_toggles_annotation_group [] node) = [] /\
  rule_messages (final_locals []) node <> [].
Proof.
  repeat split; try reflexivity. discriminate.
Qed.

End DuplicateTokens.



(* ===================================================================== *)
(** ** Further properties: AnnotationLines *)
(* ===================================================================== *)

Section LinesFurther.
Import AnnotationLines.

Lemma join_split (sep : char) (s : pystr) : join [sep] (split sep s) = s.
Proof.
  induction s as [|c s IH]; [reflexivity|].
  simpl split. pose proof (split_not_nil sep s) as Hne.
  destruct (char_eqb c sep) eqn:E.
  - apply char_eqb_eq in E. subst c.
    destruct (split sep s) as [|l ls]; [contradiction|].
    change (join [sep] ([] :: l :: ls)) with ([] ++ [sep] ++ join [sep] (l :: ls)).
    now rewrite IH.
  - destruct (split sep s) as [|l ls]; [contradiction|].
    destruct ls as [|l' ls].
    + simpl in *. now rewrite IH.
    + change (join [sep] ((c :: l) :: l' :: ls))
        with (c :: (l ++ [sep] ++ join [sep] (l' :: ls))).
      f_equal. exact IH.
Qed.

Lemma split_no_sep (sep : char) (s : pystr) :
  Forall (fun line => ~ In sep line) (split sep s).
Proof.
  induction s as [|c s IH]; simpl.
  - constructor; [intros [] | constructor].
  - destruct (char_eqb c sep) eqn:E.
    + constructor; [intros [] | exact IH].
    + destruct (split sep s) as [|l ls].
      * constructor; [|constructor]. intros [H | []]. subst.
        rewrite (proj2 (char_eqb_eq sep sep) eq_refl) in E. discriminate.
      * inversion IH as [|? ? Hl Hls]; subst. constructor; [|assumption].
        intros [H | H]; [|now apply Hl]. subst.
        rewrite (proj2 (char_eqb_eq sep sep) eq_refl) in E. discriminate.
Qed.

Lemma length_split (sep : char) (s : pystr) :
  Z.of_nat (List.length (split sep s)) = 1 + count_char sep s.
Proof.
  unfold count_char. induction s as [|c s IH]; [reflexivity|].
  simpl split. simpl filter. unfold char_eqb in *. rewrite (N.eqb_sym sep c).
  destruct (N.eqb c sep).
  - simpl List.length. lia.
  - pose proof (split_not_nil sep s) as Hne.
    destruct (split sep s) as [|l ls]; [contradiction|].
    simpl List.length in *. lia.
Qed.

(** X1: the lines of the index are the module text cut at its newlines:
    joined again with newlines they give back the text, no line contains a
    newline, and there is one line more than there are newlines (so at
    least one, also for an empty module). *)
Theorem X1_lines_of_module_text (module_as_string : pystr) :
  join [chr "010"] (_list_of_string_lines (init module_as_string))
    = module_as_string /\
  Forall (fun line => ~ In (chr "010") line)
    (_list_of_string_lines (init module_as_string)) /\
  _line_count (init module_as_string)
    = 1 + count_char (chr "010") module_as_string.
Proof.
  unfold _line_count, init. cbn [_list_of_string_lines].
  split; [apply join_split|]. split; [apply split_no_sep | apply length_split].
Qed.

Lemma py_index_negative {A : Type} (l : list A) (i : Z) :
  - Z.of_nat (List.length l) <= i < 0 ->
  exists x, nth_error l (Z.to_nat (i + Z.of_nat (List.length l))) = Some x /\
            py_index l i = Val x.
Proof.
  intros H. unfold py_index.
  destruct (i <? 0) eqn:E1; [|apply Z.ltb_ge in E1; lia].
  destruct (i + Z.of_nat (List.length l) <? 0) eqn:E2;
    [apply Z.ltb_lt in E2; lia|].
  destruct (Z.of_nat (List.length l) <=? i + Z.of_nat (List.length l)) eqn:E3;
    [apply Z.leb_le in E3; lia|].
  simpl.
  destruct (nth_error l (Z.to_nat (i + Z.of_nat (List.length l)))) as [x|] eqn:E4.
  - now exists x.
  - apply nth_error_None in E4. lia.
Qed.

Lemma py_index_out_of_range {A : Type} (l : list A) (i : Z) :
  i < - Z.of_nat (List.length l) \/ Z.of_nat (List.length l) <= i ->
  py_index l i = Exc IndexError.
Proof.
  intros H. unfold py_index.
  destruct (i <? 0) eqn:E1.
  - apply Z.ltb_lt in E1.
    destruct (i + Z.of_nat (List.length l) <? 0) eqn:E2; [reflexivity|].
    apply Z.ltb_ge in E2. lia.
  - apply Z.ltb_ge in E1.
    destruct (i <? 0) eqn:E2; [apply Z.ltb_lt in E2; lia|].
    destruct (Z.of_nat (List.length l) <=? i) eqn:E3; [reflexivity|].
    apply Z.leb_gt in E3. lia.
Qed.

(** X2: [_get_line_contents] alone is not safe outside the lines: for a
    line number from 1 to the line count it returns that line; for 0 and
    the negative numbers down to one minus the line count it returns a line
    counted from the end (0 is the last line); anywhere else it raises
    IndexError.  [is_line_annotated] calls it only behind its guard, and
    returns a boolean for every line number. *)
Theorem X2_get_line_contents_wraps_guard_protects (self : t) (n : Z) :
  (1 <= n <= _line_count self ->
   exists line,
     nth_error (_list_of_string_lines self) (Z.to_nat (n - 1)) = Some line /\
     _get_line_contents self n = Val line) /\
  (1 - _line_count self <= n <= 0 ->
   exists line,
     nth_error (_list_of_string_lines self)
       (Z.to_nat (_line_count self + n - 1)) = Some line /\
     _get_line_contents self n = Val line) /\
  (n < 1 - _line_count self \/ _line_count self < n ->
   _get_line_contents self n = Exc IndexError) /\
  (exists b, is_line_annotated self n = Val b).
Proof.
  unfold _get_line_contents, _line_count. repeat split.
  - intros H.
    destruct (py_index_in_range (_list_of_string_lines self) (n - 1))
      as [x [Hx Hi]]; [lia|]. now exists x.
  - intros H.
    destruct (py_index_negative (_list_of_string_lines self) (n - 1))
      as [x [Hx Hi]]; [lia|]. exists x. split; [|assumption].
    rewrite <- Hx. f_equal. lia.
  - intros H. apply py_index_out_of_range. lia.
  - exists (line_annotated self n). apply is_line_annotated_total.
Qed.

Lemma first_non_space (ws ws' : pystr) (c c' : char) (r r' : pystr) :
  spaces ws -> spaces ws' -> isspace c = false -> isspace c' = false ->
  ws ++ c :: r = ws' ++ c' :: r' -> c = c'.
Proof.
  revert ws'. induction ws as [|x ws IH]; intros [|y ws'] Hs Hs' Hc Hc' E;
    simpl in E.
  - now injection E.
  - injection E as -> _. inversion Hs' as [|? ? Hy _]; subst. congruence.
  - injection E as -> _. inversion Hs as [|? ? Hx _]; subst. congruence.
  - injection E as -> E. inversion Hs; inversion Hs'; subst.
    now apply (IH ws').
Qed.

(** X3: a line whose first character that is not whitespace is not [#] is
    never annotated, whatever follows on the line: a marker after code, as
    in a trailing comment, does not count. *)
Theorem X3_marker_after_text_is_not_annotated
    (self : t) (n : Z) (ws rest : pystr) (c : char) :
  nth_error (_list_of_string_lines self) (Z.to_nat (n - 1))
    = Some (ws ++ c :: rest) ->
  spaces ws -> isspace c = false -> c <> chr "#" ->
  is_line_annotated self n = Val false.
Proof.
  intros Hline Hws Hc Hhash.
  rewrite is_line_annotated_total.
  destruct (line_annotated self n) eqn:E; [|reflexivity].
  exfalso.
  assert (Ht : is_line_annotated self n = Val true)
    by (rewrite is_line_annotated_total; now rewrite E).
  apply is_line_annotated_true in Ht as [_ [line [Hl Hm]]].
  rewrite Hline in Hl. injection Hl as <-.
  destruct Hm as [ws1 [ws2 [ws3 [tail [H1 [_ [_ Heq]]]]]]].
  apply Hhash.
  apply (first_non_space ws ws1 c (chr "#") rest
           (ws2 ++ str ".." ++ ws3 ++ str "toggle" ++ tail));
    try assumption; reflexivity.
Qed.

Lemma X3_marker_after_text_is_not_annotated_witness :
  is_line_annotated (init (str "  x = 1  # .. toggle")) 1 = Val false.
Proof.
  apply (X3_marker_after_text_is_not_annotated
           (init (str "  x = 1  # .. toggle")) 1
           (str "  ") (str " = 1  # .. toggle") (chr "x")).
  - reflexivity.
  - repeat constructor.
  - reflexivity.
  - discriminate.
Defined.

(** X4: the pattern looks at the start of the line only: an annotated line
    stays annotated when whitespace is put before it and when any text is
    put after it. *)
Theorem X4_annotated_line_padded_and_extended (line ws suffix : pystr) :
  re_match _ANNOTATION_REGEX line = true ->
  spaces ws ->
  re_match _ANNOTATION_REGEX (ws ++ line ++ suffix) = true.
Proof.
  intros Hm Hws. apply annotation_regex_spec in Hm.
  apply annotation_regex_spec.
  destruct Hm as [ws1 [ws2 [ws3 [rest [H1 [H2 [H3 ->]]]]]]].
  exists (ws ++ ws1), ws2, ws3, (rest ++ suffix).
  repeat split; try assumption.
  - apply Forall_app. now split.
  - rewrite <- !app_assoc. reflexivity.
Qed.

Lemma X4_annotated_line_padded_and_extended_witness :
  re_match _ANNOTATION_REGEX
    (str "    " ++ str "# .. toggle" ++ str "_name: FOO") = true.
Proof.
  apply (X4_annotated_line_padded_and_extended
           (str "# .. toggle") (str "    ") (str "_name: FOO")).
  - reflexivity.
  - repeat constructor.
Defined.

End LinesFurther.

Lemma X2_get_line_contents_wraps_guard_protects_witness :
  exists line,
    nth_error
      (AnnotationLines._list_of_string_lines
         (AnnotationLines.init Samples.features_text))
      (Z.to_nat (AnnotationLines._line_count
                   (AnnotationLines.init Samples.features_text) + 0 - 1))
      = Some line /\
    AnnotationLines._get_line_contents
      (AnnotationLines.init Samples.features_text) 0 = Val line.
Proof.
  apply (proj1 (proj2 (X2_get_line_contents_wraps_guard_protects
                         (AnnotationLines.init Samples.features_text) 0))).
  vm_compute. split; discriminate.
Defined.

(* ===================================================================== *)
(** ** Further properties: FeatureToggleChecker *)
(* ===================================================================== *)

Section CallFurther.
Import FeatureToggleChecker.

(** The waffle-class check on any call whose [flag_name] keywords are
    literals, on any sink. *)
Lemma check_waffle_class_annotated_general (self : t) (node : Call.t)
    (ms : list message) :
  flag_name_literal node ->
  check_waffle_class_annotated self node ms =
  (Val tt,
   ms ++ if is_waffle_class_call node
            && negb (line_annotated (_lines self) (Call.lineno node - 1))
         then [needs_doc (reported_toggle_name node) (AtCall node)]
         else []).
Proof.
  intros Hlit. unfold is_waffle_class_call.
  destruct (Node.name (Call.func node)) as [f|] eqn:Hname.
  - destruct (re_match _CHECK_CAPITAL_REGEX f) eqn:Hcap.
    + destruct (endswith_any f _WAFFLE_TOGGLE_CLASSES) eqn:Hend.
      * rewrite (check_waffle_class_annotated_spec self node f); try assumption;
          [| now apply capital_regex_spec | now apply endswith_any_spec].
        cbn [andb]. now destruct (line_annotated _ _).
      * unfold check_waffle_class_annotated. rewrite Hname, Hcap, Hend.
        cbn [negb andb]. unfold ret. now rewrite app_nil_r.
    + unfold check_waffle_class_annotated. rewrite Hname, Hcap.
      cbn [negb andb]. unfold ret. now rewrite app_nil_r.
  - unfold check_waffle_class_annotated. rewrite Hname.
    cbn [andb]. unfold ret. now rewrite app_nil_r.
Qed.

Lemma check_illegal_waffle_usage_general (self : t) (node : Call.t)
    (ms : list message) :
  check_illegal_waffle_usage self node ms =
  (Val tt,
   ms ++ if is_illegal_call node
         then [illegal_usage (first_positional_or_unknown node) (AtCall node)]
         else []).
Proof.
  unfold is_illegal_call.
  destruct (Node.name (Call.func node)) as [f|] eqn:Hname.
  - now apply check_illegal_waffle_usage_spec.
  - unfold check_illegal_waffle_usage. rewrite Hname. unfold ret.
    now rewrite app_nil_r.
Qed.

Lemma waffle_class_call_not_illegal (node : Call.t) :
  is_waffle_class_call node = true -> is_illegal_call node = false.
Proof.
  unfold is_waffle_class_call, is_illegal_call.
  destruct (Node.name (Call.func node)) as [f|]; [|reflexivity].
  intros H. apply andb_true_iff in H as [H _].
  apply capital_not_illegal_function. now apply capital_regex_spec.
Qed.

(** X5: the two checks of [visit_call] never both fire on a call: with
    literal [flag_name] keywords, the visit returns normally and emits the
    "missing annotation" message for a waffle-class call that is not
    annotated, the "illegal usage" message for a deny-listed call, and
    nothing otherwise; so at most one message per call. *)
Theorem X5_visit_call_at_most_one_message (self : t) (node : Call.t) :
  flag_name_literal node ->
  result (visit_call self node) = Val tt /\
  emitted (visit_call self node)
    = (if is_waffle_class_call node
       then if line_annotated (_lines self) (Call.lineno node - 1)
            then []
            else [needs_doc (reported_toggle_name node) (AtCall node)]
       else if is_illegal_call node
            then [illegal_usage (first_positional_or_unknown node) (AtCall node)]
            else []) /\
  (List.length (emitted (visit_call self node)) <= 1)%nat.
Proof.
  intros Hlit.
  assert (Hrun : visit_call self node [] =
            (Val tt,
             if is_waffle_class_call node
             then if line_annotated (_lines self) (Call.lineno node - 1)
                  then []
                  else [needs_doc (reported_toggle_name node) (AtCall node)]
             else if is_illegal_call node
                  then [illegal_usage (first_positional_or_unknown node)
                          (AtCall node)]
                  else [])).
  { unfold visit_call, bind.
    rewrite check_waffle_class_annotated_general by assumption.
    rewrite check_illegal_waffle_usage_general.
    destruct (is_waffle_class_call node) eqn:Hw.
    - rewrite (waffle_class_call_not_illegal node Hw). cbn [andb app].
      rewrite app_nil_r. now destruct (line_annotated _ _).
    - cbn [andb app]. reflexivity. }
  unfold result, emitted. rewrite Hrun. cbn [fst snd].
  repeat split.
  destruct (is_waffle_class_call node), (is_illegal_call node),
    (line_annotated (_lines self) (Call.lineno node - 1)); simpl; lia.
Qed.

Lemma X5_visit_call_at_most_one_message_witness :
  flag_name_literal Samples.unknown_call /\
  (List.length
     (emitted (visit_call (visit_module Samples.unknown_call_text)
                 Samples.unknown_call)) <= 1)%nat.
Proof.
  assert (H : flag_name_literal Samples.unknown_call).
  { intros k [<- | []] _. discriminate. }
  refine (conj H _).
  apply (X5_visit_call_at_most_one_message
           (visit_module Samples.unknown_call_text) Samples.unknown_call H).
Defined.

(** X6: a call that neither check looks at (its callee is not a simple
    name, as in [waffle.flag_is_active(...)], or its name is neither a
    capitalised waffle class nor on the deny-list) is visited without a
    message and without an error, whatever its arguments and keywords. *)
Theorem X6_other_calls_are_ignored (self : t) (node : Call.t) :
  is_waffle_class_call node = false ->
  is_illegal_call node = false ->
  result (visit_call self node) = Val tt /\
  emitted (visit_call self node) = [].
Proof.
  unfold is_waffle_class_call, is_illegal_call. intros Hw Hi.
  unfold result, emitted, visit_call, bind,
    check_waffle_class_annotated, check_illegal_waffle_usage.
  destruct (Node.name (Call.func node)) as [f|]; [|now split].
  rewrite Hi.
  destruct (re_match _CHECK_CAPITAL_REGEX f); [|now split].
  cbn [andb] in Hw. rewrite Hw. now split.
Qed.

Lemma X6_other_calls_are_ignored_witness :
  emitted (visit_call (visit_module (str "waffle.flag_is_active('x')"))
             attribute_call) = [].
Proof.
  apply (X6_other_calls_are_ignored
           (visit_module (str "waffle.flag_is_active('x')")) attribute_call);
    reflexivity.
Defined.

(** The loop over the keywords raises at the first [flag_name] keyword
    whose value is not a literal, and emits nothing. *)
Lemma keywords_loop_raises (kws : list Keyword.t) (init : pyobj)
    (ms : list message) :
  (exists k, In k kws /\ bad_flag_name k) ->
  keywords_loop kws init ms = (Exc AttributeError, ms).
Proof.
  unfold keywords_loop, bad_flag_name, is_flag_name. revert init.
  induction kws as [|k kws IH]; intros init [k0 [Hin [Hflag Hval]]];
    [contradiction|].
  simpl for_loop. unfold bind at 1.
  destruct (Keyword.arg k) as [a|] eqn:Ea.
  - destruct (PyStr.eqb a (str "flag_name")) eqn:Eb.
    + destruct (Node.value (Keyword.value k)) as [v|] eqn:Ev.
      * cbn [getattr]. unfold ret at 1. apply IH.
        destruct Hin as [-> | Hin]; [congruence|]. now exists k0.
      * reflexivity.
    + unfold ret at 1. apply IH.
      destruct Hin as [-> | Hin]; [|now exists k0].
      rewrite Ea, Eb in Hflag. discriminate.
  - unfold ret at 1. apply IH.
    destruct Hin as [-> | Hin]; [|now exists k0].
    rewrite Ea in Hflag. discriminate.
Qed.

(** X7: the keywords of a waffle-class call are read only when the
    annotation is missing.  Then a [flag_name] keyword whose value is not a
    literal (a name, say) makes the check raise AttributeError before any
    message is emitted; behind an annotated line the same call is accepted. *)
Theorem X7_flag_name_not_literal_raises
    (self : t) (node : Call.t) (kws : list Keyword.t) :
  is_waffle_class_call node = true ->
  Call.keywords node = Some kws ->
  (exists k, In k kws /\ bad_flag_name k) ->
  (AnnotationLines.is_line_annotated (_lines self) (Call.lineno node - 1)
     = Val false ->
   result (visit_call self node) = Exc AttributeError /\
   emitted (visit_call self node) = []) /\
  (AnnotationLines.is_line_annotated (_lines self) (Call.lineno node - 1)
     = Val true ->
   result (visit_call self node) = Val tt /\
   emitted (visit_call self node) = []).
Proof.
  intros Hw Hk Hbad.
  pose proof (waffle_class_call_not_illegal node Hw) as Hi.
  unfold is_waffle_class_call, is_illegal_call in Hw, Hi.
  destruct (Node.name (Call.func node)) as [f|] eqn:Hname; [|discriminate].
  apply andb_true_iff in Hw as [Hcap Hend].
  split; intros Hann.
  - assert (Hrun : visit_call self node [] = (Exc AttributeError, [])).
    { unfold visit_call, check_waffle_class_annotated.
      rewrite Hname, Hcap, Hend. cbn [negb]. unfold bind.
      rewrite Hann. cbn [lift]. unfold ret. cbn [negb].
      rewrite Hk, keywords_loop_raises by assumption. reflexivity. }
    unfold result, emitted. rewrite Hrun. now split.
  - assert (Hrun : visit_call self node [] = (Val tt, [])).
    { unfold visit_call, check_waffle_class_annotated,
        check_illegal_waffle_usage.
      rewrite Hname, Hcap, Hend, Hi. cbn [negb]. unfold bind.
      rewrite Hann. reflexivity. }
    unfold result, emitted. rewrite Hrun. now split.
Qed.

Lemma X7_flag_name_not_literal_raises_witness :
  result (visit_call
            (visit_module (str "FLAG = WaffleFlag('ns', flag_name=NAME)"))
            name_keyword_call) = Exc AttributeError /\
  emitted (visit_call
             (visit_module (str "FLAG = WaffleFlag('ns', flag_name=NAME)"))
             name_keyword_call) = [].
Proof.
  apply (X7_flag_name_not_literal_raises
           (visit_module (str "FLAG = WaffleFlag('ns', flag_name=NAME)"))
           name_keyword_call
           [{| Keyword.arg := Some (str "flag_name");
               Keyword.value := Samples.name_node 1 "NAME" |}]).
  - reflexivity.
  - reflexivity.
  - eexists. split; [left; reflexivity | split; reflexivity].
  - reflexivity.
Defined.

(** X8: a waffle-class call on the first line of a module (or on any line
    up to 1) cannot be annotated, as there is no line before it: with
    literal [flag_name] keywords it always gets the "missing annotation"
    message, whatever the text of the module. *)
Theorem X8_first_line_call_always_reported (self : t) (node : Call.t) :
  is_waffle_class_call node = true ->
  flag_name_literal node ->
  Call.lineno node <= 1 ->
  emitted (visit_call self node)
    = [needs_doc (reported_toggle_name node) (AtCall node)].
Proof.
  intros Hw Hlit Hline.
  unfold emitted, visit_call, bind.
  rewrite check_waffle_class_annotated_general by assumption.
  rewrite check_illegal_waffle_usage_general.
  rewrite Hw, (waffle_class_call_not_illegal node Hw).
  unfold line_annotated, AnnotationLines.is_line_annotated.
  destruct (Call.lineno node - 1 <? 1) eqn:E; [|apply Z.ltb_ge in E; lia].
  reflexivity.
Qed.

Lemma X8_first_line_call_always_reported_witness :
  emitted (visit_call (visit_module Samples.unknown_call_text)
             Samples.unknown_call)
    = [needs_doc (reported_toggle_name Samples.unknown_call)
         (AtCall Samples.unknown_call)].
Proof.
  apply (X8_first_line_call_always_reported
           (visit_module Samples.unknown_call_text) Samples.unknown_call).
  - reflexivity.
  - intros k [<- | []] _. discriminate.
  - simpl. lia.
Defined.

End CallFurther.

Section ClassAndDictFurther.
Import FeatureToggleChecker.

(** X9: a class is checked only when one of its base names is exactly
    [ConfigurationModel]: such a class gets one "missing annotation"
    message with its own name, on the class node, when the line before it
    is not annotated, and none when it is; any other class gets none.  The
    visit never raises. *)
Theorem X9_configuration_model_subclass (self : t) (node : ClassDef.t) :
  result (visit_classdef self node) = Val tt /\
  (In (str "ConfigurationModel") (ClassDef.basenames node) ->
   AnnotationLines.is_line_annotated (_lines self) (ClassDef.lineno node - 1)
     = Val false ->
   emitted (visit_classdef self node)
     = [needs_doc (PStr (ClassDef.name node)) (AtClassDef node)]) /\
  (In (str "ConfigurationModel") (ClassDef.basenames node) ->
   AnnotationLines.is_line_annotated (_lines self) (ClassDef.lineno node - 1)
     = Val true ->
   emitted (visit_classdef self node) = []) /\
  (~ In (str "ConfigurationModel") (ClassDef.basenames node) ->
   emitted (visit_classdef self node) = []).
Proof.
  unfold result, emitted, visit_classdef, check_configuration_model_annotated.
  destruct (mem (str "ConfigurationModel") (ClassDef.basenames node)) eqn:E.
  - apply mem_spec in E. cbn [negb]. unfold bind.
    rewrite is_line_annotated_total. cbn [lift]. unfold ret.
    repeat split.
    + now destruct (line_annotated _ _).
    + intros _ [= ->]. reflexivity.
    + intros _ [= ->]. reflexivity.
    + intros H. contradiction.
  - cbn [negb]. repeat split. intros HIn. apply mem_spec in HIn. congruence.
Qed.

Lemma X9_configuration_model_subclass_witness :
  emitted (visit_classdef
             (visit_module (str "class Settings(ConfigurationModel):"))
             config_class)
    = [needs_doc (PStr (str "Settings")) (AtClassDef config_class)].
Proof.
  apply (proj1 (proj2 (X9_configuration_model_subclass
                         (visit_module (str "class Settings(ConfigurationModel):"))
                         config_class))).
  - left. reflexivity.
  - reflexivity.
Defined.

(** X10: a dictionary is checked only when the first target of the
    assignment that holds it is the simple name FEATURES: when the parent
    has no targets, or its first target is not that name (it has no name,
    or another one, even if a later target is FEATURES), the visit returns
    without a message and without an error, whatever the keys are. *)
Theorem X10_dict_not_first_target_features_is_ignored
    (self : t) (node : Dict.t) :
  Dict.parent_targets node = None \/
  (exists target others,
      Dict.parent_targets node = Some (target :: others) /\
      Node.name target <> Some (str "FEATURES")) ->
  result (visit_dict self node) = Val tt /\
  emitted (visit_dict self node) = [].
Proof.
  intros H.
  assert (Hrun : visit_dict self node [] = (Val tt, [])).
  { unfold visit_dict, check_django_feature_flag_annotated,
      try_except_AttributeError_return.
    destruct H as [-> | [target [others [-> Hname]]]]; [reflexivity|].
    unfold bind at 1. cbn [getattr]. unfold ret at 1. unfold bind at 1.
    destruct (py_index_in_range (target :: others) 0) as [x [Hx ->]];
      [simpl; lia|].
    simpl in Hx. injection Hx as <-. cbn [lift]. unfold ret at 1.
    destruct (Node.name target) as [n|]; [|reflexivity].
    cbn [getattr]. unfold ret at 1.
    destruct (PyStr.eqb n (str "FEATURES")) eqn:E; [|reflexivity].
    apply pystr_eqb_eq in E. congruence. }
  unfold result, emitted. rewrite Hrun. now split.
Qed.

Lemma X10_dict_not_first_target_features_is_ignored_witness :
  emitted (visit_dict (visit_module (str "OTHER = FEATURES = {'A': True}"))
             second_target_dict) = [].
Proof.
  apply (X10_dict_not_first_target_features_is_ignored
           (visit_module (str "OTHER = FEATURES = {'A': True}"))
           second_target_dict).
  right. exists (Samples.name_node 1 "OTHER"), [Samples.name_node 1 "FEATURES"].
  split; [reflexivity | discriminate].
Defined.

Lemma for_loop_app {A B : Type} (l1 l2 : list A) (acc : B)
    (body : B -> A -> checker B) (ms : list message) :
  for_loop (l1 ++ l2) acc body ms =
  match for_loop l1 acc body ms with
  | (Val a, ms') => for_loop l2 a body ms'
  | (Exc e, ms') => (Exc e, ms')
  end.
Proof.
  revert acc ms. induction l1 as [|x l1 IH]; intros acc ms; [reflexivity|].
  simpl. unfold bind. destruct (body acc x ms) as [[a | e] ms'];
    [apply IH | reflexivity].
Qed.

(** X11: in a FEATURES dictionary, a key that is not a literal (a name,
    an unpacked mapping) and follows a line that is not annotated makes the
    check raise AttributeError, outside the try block; the messages of the
    entries before it have been emitted and stay, those of the entries
    after it are never produced. *)
Theorem X11_features_key_not_literal_raises
    (self : t) (node : Dict.t) (target : Node.t) (others : list Node.t)
    (before after : list (Node.t * Node.t)) (key v : Node.t) :
  Dict.parent_targets node = Some (target :: others) ->
  Node.name target = Some (str "FEATURES") ->
  Dict.items node = before ++ (key, v) :: after ->
  (forall item, In item before ->
     AnnotationLines.is_line_annotated
       (_lines self) (Node.lineno (fst item) - 1) = Val false ->
     Node.value (fst item) <> None) ->
  AnnotationLines.is_line_annotated (_lines self) (Node.lineno key - 1)
    = Val false ->
  Node.value key = None ->
  result (visit_dict self node) = Exc AttributeError /\
  emitted (visit_dict self node)
    = flat_map
        (fun item : Node.t * Node.t =>
           if line_annotated (_lines self) (Node.lineno (fst item) - 1)
           then []
           else match Node.value (fst item) with
                | Some name => [needs_doc name (AtDict node)]
                | None => []
                end)
        before.
Proof.
  intros Htargets Hname Hitems Hlit Hann Hval.
  assert (Hrun : visit_dict self node [] =
            (Exc AttributeError,
             flat_map
               (fun item : Node.t * Node.t =>
                  if line_annotated (_lines self) (Node.lineno (fst item) - 1)
                  then []
                  else match Node.value (fst item) with
                       | Some name => [needs_doc name (AtDict node)]
                       | None => []
                       end)
               before)).
  { unfold visit_dict, check_django_feature_flag_annotated,
      try_except_AttributeError_return.
    rewrite Htargets. unfold bind at 1. cbn [getattr]. unfold ret at 1.
    unfold bind at 1.
    destruct (py_index_in_range (target :: others) 0) as [x [Hx ->]];
      [simpl; lia|].
    simpl in Hx. injection Hx as <-.
    cbn [lift]. unfold ret at 1. rewrite Hname. cbn [getattr].
    unfold ret at 1. rewrite pystr_eqb_refl, Hitems, for_loop_app.
    rewrite features_loop_spec.
    - simpl for_loop. unfold bind. cbn [fst]. rewrite Hann. cbn [lift].
      unfold ret. cbn [negb]. rewrite Hval. reflexivity.
    - intros item Hin Hna. apply Hlit; [assumption|].
      rewrite is_line_annotated_total. now rewrite Hna. }
  unfold result, emitted. rewrite Hrun. now split.
Qed.

Lemma X11_features_key_not_literal_raises_witness :
  result (visit_dict (visit_module (str "FEATURES = {'A': True, B: False}"))
            name_key_dict) = Exc AttributeError /\
  emitted (visit_dict (visit_module (str "FEATURES = {'A': True, B: False}"))
             name_key_dict)
    = [needs_doc (PStr (str "A")) (AtDict name_key_dict)].
Proof.
  apply (X11_features_key_not_literal_raises
           (visit_module (str "FEATURES = {'A': True, B: False}"))
           name_key_dict (Samples.name_node 1 "FEATURES") []
           [(Samples.const 1 "A", Samples.name_node 1 "True")] []
           (Samples.name_node 1 "B") (Samples.name_node 1 "False")).
  - reflexivity.
  - reflexivity.
  - reflexivity.
  - intros item [<- | []] _. discriminate.
  - reflexivity.
  - reflexivity.
Defined.

End ClassAndDictFurther.

(* ===================================================================== *)
(** ** Further properties: FeatureToggleAnnotationChecker *)
(* ===================================================================== *)

Section GroupFurther.
Import Annotation FeatureToggleAnnotationChecker.

Lemma lstrip_nil (s : pystr) : lstrip s = [] <-> spaces s.
Proof.
  unfold spaces. induction s as [|c s IH]; simpl.
  - split; [constructor | reflexivity].
  - destruct (isspace c) eqn:E.
    + rewrite IH. split; [now constructor | now inversion 1].
    + split; [discriminate | inversion 1; congruence].
Qed.

Lemma lstrip_head (s : pystr) (c : char) (r : pystr) :
  lstrip s = c :: r -> isspace c = false.
Proof.
  induction s as [|x s IH]; simpl; [discriminate|].
  destruct (isspace x) eqn:E; [exact IH | now intros [= <- _]].
Qed.

(** [s.strip()] is empty exactly when [s] is whitespace only. *)
Lemma strip_nil (s : pystr) : strip s = [] <-> spaces s.
Proof.
  unfold strip, rstrip. split.
  - intros H. apply (f_equal (@rev char)) in H.
    rewrite rev_involutive in H. simpl in H.
    apply lstrip_nil in H. unfold spaces in H.
    apply Forall_rev in H. rewrite rev_involutive in H.
    destruct (lstrip s) as [|c r] eqn:E; [now apply lstrip_nil|].
    apply lstrip_head in E. inversion H; congruence.
  - intros H. apply lstrip_nil in H. now rewrite H.
Qed.

(** Which of the four messages the rules emit. *)
Lemma rule_messages_emits (l : locals) (node : ModuleNode.t) :
  (emits INCORRECT_NAME_MESSAGE_ID (rule_messages l node) <->
   data_falsy (toggle_name l) = true) /\
  (emits EMPTY_DESCRIPTION_MESSAGE_ID (rule_messages l node) <->
   str_falsy (toggle_description l) = true) /\
  (emits MISSING_TARGET_REMOVAL_DATE_MESSAGE_ID (rule_messages l node) <->
   temporary_use_case l && opt_falsy (target_removal_date l) = true).
Proof.
  unfold emits, rule_messages.
  destruct (data_falsy (toggle_name l)), (str_falsy (toggle_description l)),
    (temporary_use_case l && opt_falsy (target_removal_date l)),
    (not_in_True_False (toggle_default l));
    cbn [app]; repeat split; try reflexivity;
    try (intros [m [Hin Hid]];
         repeat (destruct Hin as [<- | Hin]; [discriminate Hid|]);
         contradiction);
    try (intros Hf; discriminate Hf);
    intros _;
    first [ eexists; split; [left; reflexivity | reflexivity]
          | eexists; split; [right; left; reflexivity | reflexivity]
          | eexists; split; [right; right; left; reflexivity | reflexivity]
          | eexists; split; [right; right; right; left; reflexivity | reflexivity] ].
Qed.

Lemma str_falsy_spec (s : pystr) : str_falsy s = true <-> s = [].
Proof. destruct s; simpl; split; congruence. Qed.

Lemma data_falsy_spec (d : data) :
  data_falsy d = true <-> d = Text [] \/ d = Tags [].
Proof.
  destruct d as [[|c s] | [|x items]]; simpl; split;
    try (intros [H | H]; congruence); try discriminate; auto.
Qed.

(** The check, on any sink, of a group whose descriptions are strings. *)
Lemma check_group_on_sink (annotations : list Annotation.t)
    (node : ModuleNode.t) (ms : list message) :
  descriptions_are_text annotations ->
  check_feature_toggles_annotation_group annotations node ms =
  (Val tt,
   ms ++ emitted (check_feature_toggles_annotation_group annotations node)).
Proof.
  intros Htext. unfold emitted. rewrite check_group_spec by assumption.
  cbn [snd]. unfold check_feature_toggles_annotation_group.
  destruct annotations as [|a l].
  - unfold ret. now rewrite app_nil_r.
  - unfold bind. rewrite loop_spec by assumption. cbn [lift]. unfold ret.
    now rewrite rules_spec.
Qed.

(** X12: on a non-empty group (whose descriptions are strings, as the
    search yields them) the "incorrect name" message, which carries no
    argument, is emitted exactly when the group has no [toggle_name]
    annotation or the data of its last one is empty (the empty string, or
    an empty list); the name is not trimmed, so a name of whitespace only
    is accepted. *)
Theorem X12_incorrect_name_iff_absent_or_empty
    (annotations : list Annotation.t) (node : ModuleNode.t) :
  annotations <> [] ->
  descriptions_are_text annotations ->
  (emits INCORRECT_NAME_MESSAGE_ID
     (emitted (check_feature_toggles_annotation_group annotations node)) <->
   ~ has_token TOKEN_NAME annotations \/
   last_data TOKEN_NAME annotations = Some (Text []) \/
   last_data TOKEN_NAME annotations = Some (Tags [])) /\
  (forall m,
      In m (emitted (check_feature_toggles_annotation_group annotations node)) ->
      msg_id m = INCORRECT_NAME_MESSAGE_ID -> msg_args m = []).
Proof.
  intros Hne Htext. unfold emitted. rewrite check_group_spec by assumption.
  cbn [snd].
  destruct annotations as [|a l]; [contradiction|]. split.
  - rewrite (proj1 (rule_messages_emits _ node)), data_falsy_spec.
    cbn [final_locals toggle_name]. rewrite <- last_data_none.
    destruct (last_data TOKEN_NAME (a :: l)) as [d|]; simpl.
    + split.
      * intros [-> | ->]; [right; now left | right; now right].
      * intros [H | [[= ->] | [= ->]]]; [discriminate | now left | now right].
    + split; [now left | now left].
  - intros m Hin Hid. unfold rule_messages in Hin.
    destruct (data_falsy _), (str_falsy _), (_ && _), (not_in_True_False _);
      cbn [app] in Hin;
      repeat (destruct Hin as [<- | Hin];
              [first [reflexivity | discriminate Hid]|]);
      contradiction.
Qed.

Lemma X12_incorrect_name_iff_absent_or_empty_witness :
  emits INCORRECT_NAME_MESSAGE_ID
    (emitted (check_feature_toggles_annotation_group
                [Samples.ann ".. toggle_default:" "True"] Samples.a_module)).
Proof.
  apply (proj1 (X12_incorrect_name_iff_absent_or_empty
                  [Samples.ann ".. toggle_default:" "True"] Samples.a_module
                  ltac:(discriminate)
                  ltac:(intros a [<- | []] H; discriminate H))).
  left. intros [a [[<- | []] H]]. discriminate H.
Defined.

(** X13: on a non-empty group (whose descriptions are strings, as the
    search yields them) the "empty description" message is emitted exactly
    when the group has no [toggle_description] annotation or the data of
    its last one consists of whitespace only. *)
Theorem X13_empty_description_iff_absent_or_blank
    (annotations : list Annotation.t) (node : ModuleNode.t) :
  annotations <> [] ->
  descriptions_are_text annotations ->
  (emits EMPTY_DESCRIPTION_MESSAGE_ID
     (emitted (check_feature_toggles_annotation_group annotations node)) <->
   ~ has_token TOKEN_DESCRIPTION annotations \/
   exists text, last_data TOKEN_DESCRIPTION annotations = Some (Text text) /\
                spaces text).
Proof.
  intros Hne Htext. unfold emitted. rewrite check_group_spec by assumption.
  cbn [snd].
  destruct annotations as [|a l]; [contradiction|].
  rewrite (proj1 (proj2 (rule_messages_emits _ node))), str_falsy_spec.
  cbn [final_locals toggle_description]. rewrite <- last_data_none.
  destruct (last_data TOKEN_DESCRIPTION (a :: l)) as [[s | items]|] eqn:E;
    cbn [stripped].
  - rewrite strip_nil. split.
    + intros H. right. now exists s.
    + intros [H | [text [[= ->] H]]]; [discriminate | assumption].
  - exfalso. unfold last_data in E.
    destruct (find _ (rev (a :: l))) as [x|] eqn:Ef; [|discriminate].
    apply find_some in Ef as [Hin Hx]. apply in_rev in Hin.
    apply pystr_eqb_eq in Hx. destruct (Htext x Hin Hx) as [s Hs].
    simpl in E. congruence.
  - split; [now left | reflexivity].
Qed.

Lemma X13_empty_description_iff_absent_or_blank_witness :
  emits EMPTY_DESCRIPTION_MESSAGE_ID
    (emitted (check_feature_toggles_annotation_group
                [Samples.ann ".. toggle_name:" "X";
                 Samples.ann ".. toggle_description:" "   "]
                Samples.a_module)).
Proof.
  apply (X13_empty_description_iff_absent_or_blank
           [Samples.ann ".. toggle_name:" "X";
            Samples.ann ".. toggle_description:" "   "]
           Samples.a_module ltac:(discriminate)
           ltac:(intros a [<- | [<- | []]] _; eexists; reflexivity)).
  right. exists (str "   "). split; [reflexivity | repeat constructor].
Defined.

(** X14: on a group whose descriptions are strings, the "missing target
    removal date" message is emitted exactly when the data of some
    [toggle_use_cases] annotation has "temporary" in it (one of the tags of
    a list, a substring of a str) and the group has no
    [toggle_target_removal_date] annotation or the data of its last one is
    empty. *)
Theorem X14_missing_removal_date_iff
    (annotations : list Annotation.t) (node : ModuleNode.t) :
  descriptions_are_text annotations ->
  (emits MISSING_TARGET_REMOVAL_DATE_MESSAGE_ID
     (emitted (check_feature_toggles_annotation_group annotations node)) <->
   (exists a, In a annotations /\ annotation_token a = TOKEN_USE_CASES /\
              mentions (str "temporary") (annotation_data a)) /\
   (~ has_token TOKEN_TARGET_REMOVAL_DATE annotations \/
    last_data TOKEN_TARGET_REMOVAL_DATE annotations = Some (Text []) \/
    last_data TOKEN_TARGET_REMOVAL_DATE annotations = Some (Tags []))).
Proof.
  intros Htext. unfold emitted. rewrite check_group_spec by assumption.
  cbn [snd].
  destruct annotations as [|a l].
  - split.
    + intros [m [[] _]].
    + intros [[x [[] _]] _].
  - rewrite (proj2 (proj2 (rule_messages_emits _ node))).
    cbn [final_locals temporary_use_case target_removal_date].
    rewrite andb_true_iff, some_data_contains_spec, <- last_data_none.
    destruct (last_data TOKEN_TARGET_REMOVAL_DATE (a :: l)) as [d|];
      cbn [opt_falsy]; [rewrite data_falsy_spec|].
    + split; intros [H1 H2]; (split; [assumption|]).
      * destruct H2 as [-> | ->]; [right; now left | right; now right].
      * destruct H2 as [H2 | [[= ->] | [= ->]]];
          [discriminate | now left | now right].
    + split; intros [H1 _]; (split; [assumption|]); [now left | reflexivity].
Qed.

Lemma X14_missing_removal_date_iff_witness :
  emits MISSING_TARGET_REMOVAL_DATE_MESSAGE_ID
    (emitted (check_feature_toggles_annotation_group
                [Samples.tags ".. toggle_use_cases:" ["temporary"%string]]
                Samples.a_module)).
Proof.
  apply (X14_missing_removal_date_iff
           [Samples.tags ".. toggle_use_cases:" ["temporary"%string]]
           Samples.a_module
           ltac:(intros a [<- | []] H; discriminate H)).
  split.
  - eexists. split; [left; reflexivity|]. split; [reflexivity|].
    right. eexists. split; [reflexivity | left; reflexivity].
  - left. intros [a [[<- | []] H]]. discriminate H.
Defined.

End GroupFurther.

Section GroupShape.
Import Annotation FeatureToggleAnnotationChecker.

(** X15: a group gets at most four messages, no two of the same kind, all
    reported on the module node and not on a line of the group; each one
    carries no argument (the name rule) or the toggle name alone. *)
Theorem X15_group_messages_shape
    (annotations : list Annotation.t) (node : ModuleNode.t) :
  (List.length
     (emitted (check_feature_toggles_annotation_group annotations node)) <= 4)%nat /\
  NoDup (map msg_id
           (emitted (check_feature_toggles_annotation_group annotations node))) /\
  Forall
    (fun m =>
       msg_node m = AtModule node /\
       (msg_args m = [] \/
        msg_args m
          = [obj_of_data (or_empty (last_data TOKEN_NAME annotations))]))
    (emitted (check_feature_toggles_annotation_group annotations node)).
Proof.
  unfold emitted.
  destruct (check_group_cases annotations node) as [[_ Hrun] | Hrun];
    rewrite Hrun; cbn [snd];
    [|repeat split; [simpl; lia | constructor | constructor]].
  destruct annotations as [|a l].
  - repeat split; [simpl; lia | constructor | constructor].
  - unfold rule_messages. cbn [final_locals toggle_name].
    destruct (data_falsy _), (str_falsy _), (_ && _), (not_in_True_False _);
      cbn [app]; (split; [simpl; lia|]); split;
      try (repeat constructor; simpl; tauto);
      cbn [map];
      repeat (constructor;
              [intros Hin;
               repeat (destruct Hin as [Hin | Hin]; [discriminate Hin|]);
               contradiction|]);
      constructor.
Qed.

Lemma groups_loop_spec (node : ModuleNode.t)
    (groups : list (list Annotation.t)) (ms : list message) :
  (forall group, In group groups -> descriptions_are_text group) ->
  for_loop groups tt
    (fun _ current_annotations_group =>
       check_feature_toggles_annotation_group current_annotations_group node)
    ms =
  (Val tt,
   ms ++ flat_map
           (fun group =>
              emitted (check_feature_toggles_annotation_group group node))
           groups).
Proof.
  revert ms. induction groups as [|g groups IH]; intros ms Htext; simpl.
  - unfold ret. now rewrite app_nil_r.
  - unfold bind. rewrite check_group_on_sink by (apply Htext; now left).
    rewrite IH by (intros x Hx; apply Htext; now right).
    now rewrite app_assoc.
Qed.

(** X16: [visit_module] checks every group of every file in order and
    does not stop early: on groups whose descriptions are strings, as the
    search yields them, it returns normally, and its messages are those of
    the groups one after the other; an empty group adds nothing. *)
Theorem X16_visit_module_concatenates_groups
    (node : ModuleNode.t)
    (results : list (pystr * list (list Annotation.t))) :
  (forall file_results group,
      In file_results results -> In group (snd file_results) ->
      descriptions_are_text group) ->
  result (visit_module node results) = Val tt /\
  emitted (visit_module node results) = all_group_messages node results.
Proof.
  intros Htext.
  assert (Hrun : forall ms,
             visit_module node results ms
             = (Val tt, ms ++ all_group_messages node results)).
  { unfold visit_module, all_group_messages.
    induction results as [|fr results IH]; intros ms; simpl.
    - unfold ret. now rewrite app_nil_r.
    - unfold bind.
      rewrite groups_loop_spec
        by (intros g Hg; apply (Htext fr g); [now left | assumption]).
      rewrite IH
        by (intros fr' g Hfr Hg; apply (Htext fr' g); [now right | assumption]).
      now rewrite app_assoc. }
  unfold result, emitted. rewrite Hrun. now split.
Qed.

Lemma X16_visit_module_concatenates_groups_witness :
  emitted (visit_module Samples.a_module
             [(str "settings.py",
               [Samples.with_default "true"; []; Samples.with_default "True"])])
  = all_group_messages Samples.a_module
      [(str "settings.py",
        [Samples.with_default "true"; []; Samples.with_default "True"])].
Proof.
  apply (X16_visit_module_concatenates_groups Samples.a_module
           [(str "settings.py",
             [Samples.with_default "true"; []; Samples.with_default "True"])]).
  intros fr g [<- | []] [<- | [<- | [<- | []]]].
  - apply sample_descriptions_are_text.
  - intros a [].
  - apply sample_descriptions_are_text.
Defined.

Lemma loop_body_unrecognized (l : locals) (a : Annotation.t) :
  recognized a = false -> loop_body l a = Val l.
Proof.
  unfold recognized, mem. cbn [existsb]. intros H.
  repeat (apply orb_false_iff in H as [? H]).
  unfold loop_body.
  repeat match goal with
         | E : PyStr.eqb _ _ = false |- _ => rewrite E; clear E
         end.
  reflexivity.
Qed.

Lemma loop_filter (annotations : list Annotation.t) (l : locals) :
  loop annotations l = loop (filter recognized annotations) l.
Proof.
  revert l. induction annotations as [|a rest IH]; intros l; [reflexivity|].
  simpl. destruct (recognized a) eqn:E.
  - simpl. destruct (loop_body l a); [apply IH | reflexivity].
  - rewrite (loop_body_unrecognized l a E). apply IH.
Qed.

(** X17: annotations whose token is none of the five recognized ones do
    not influence the messages: a group with at least one recognized
    annotation gets the same messages as the group without the others. *)
Theorem X17_other_tokens_are_ignored
    (annotations : list Annotation.t) (node : ModuleNode.t) :
  filter recognized annotations <> [] ->
  emitted (check_feature_toggles_annotation_group annotations node)
  = emitted (check_feature_toggles_annotation_group
               (filter recognized annotations) node).
Proof.
  intros Hne. unfold emitted, check_feature_toggles_annotation_group.
  destruct (filter recognized annotations) as [|b kept] eqn:Ef;
    [contradiction|].
  destruct annotations as [|a rest]; [discriminate|].
  unfold bind. rewrite (loop_filter (a :: rest)), Ef. reflexivity.
Qed.

Lemma X17_other_tokens_are_ignored_witness :
  emitted (check_feature_toggles_annotation_group
             (Samples.ann ".. toggle_implementation:" "WaffleFlag"
              :: Samples.with_default "True") Samples.a_module)
  = emitted (check_feature_toggles_annotation_group
               (Samples.with_default "True") Samples.a_module).
Proof.
  apply (X17_other_tokens_are_ignored
           (Samples.ann ".. toggle_implementation:" "WaffleFlag"
            :: Samples.with_default "True") Samples.a_module).
  discriminate.
Defined.

(** X18: a non-empty group without any recognized annotation gets exactly
    three messages, in this order: incorrect name, empty description and
    non-boolean default, the last two with the empty string for name. *)
Theorem X18_group_without_recognized_annotation
    (annotations : list Annotation.t) (node : ModuleNode.t) :
  annotations <> [] ->
  (forall a, In a annotations -> recognized a = false) ->
  emitted (check_feature_toggles_annotation_group annotations node)
  = [annotation_message INCORRECT_NAME_MESSAGE_ID [] node;
     annotation_message EMPTY_DESCRIPTION_MESSAGE_ID [PStr []] node;
     annotation_message NON_BOOLEAN_DEFAULT_VALUE [PStr []] node].
Proof.
  intros Hne Hun.
  assert (Hf : filter recognized annotations = []).
  { induction annotations as [|a rest IH]; [reflexivity|].
    simpl. rewrite (Hun a) by now left.
    destruct rest as [|b rest]; [reflexivity|].
    apply IH; [discriminate | intros x Hx; apply Hun; now right]. }
  unfold emitted, check_feature_toggles_annotation_group.
  destruct annotations as [|a rest]; [contradiction|].
  unfold bind. rewrite (loop_filter (a :: rest)), Hf. reflexivity.
Qed.

Lemma X18_group_without_recognized_annotation_witness :
  emitted (check_feature_toggles_annotation_group
             [Samples.tags ".. toggle_implementation:" ["WaffleFlag"%string]]
             Samples.a_module)
  = [annotation_message INCORRECT_NAME_MESSAGE_ID [] Samples.a_module;
     annotation_message EMPTY_DESCRIPTION_MESSAGE_ID [PStr []] Samples.a_module;
     annotation_message NON_BOOLEAN_DEFAULT_VALUE [PStr []] Samples.a_module].
Proof.
  apply (X18_group_without_recognized_annotation
           [Samples.tags ".. toggle_implementation:" ["WaffleFlag"%string]]
           Samples.a_module).
  - discriminate.
  - intros a [<- | []]. reflexivity.
Defined.

End GroupShape.
